(** * Exam timetabling as a binary CSP: the encoding layer of [exams.py]

    A shallow embedding of the class [Exams] (constructor, the five
    constraint predicates, [display]) and of the module-level loop that
    drives the solving configurations, followed by the properties of the
    encoding that the specification states. *)

From stdpp Require Import gmap strings list fin_maps.
From Stdlib Require Import ZArith Lia.

Local Open Scope Z_scope.
Set Warnings "-clear-no-such-hyp".

(** ** Python exceptions and the error monad *)

Inductive PyError :=
  | KeyError (k : string)
  | AttributeError (attr : string).

Inductive result (A : Type) :=
  | Ok (a : A)
  | Raise (e : PyError).
Arguments Ok {A} a.
Arguments Raise {A} e.

#[global] Instance result_ret : MRet result := λ A, Ok.
#[global] Instance result_bind : MBind result := λ A B f r,
  match r with Ok a => f a | Raise e => Raise e end.

(** [d[k]] *)
Definition getitem {V} (d : gmap string V) (k : string) : result V :=
  match d !! k with Some v => Ok v | None => Raise (KeyError k) end.

(** [d.pop(k)]: the value and the dict without the key *)
Definition pop {V} (d : gmap string V) (k : string) : result (V * gmap string V) :=
  match d !! k with Some v => Ok (v, delete k d) | None => Raise (KeyError k) end.

(** [dict(zip(ks, vs))]: entries are stored left to right, a later one
    overwrites an earlier one with the same key *)
Definition dict_zip {V} (ks : list string) (vs : list V) : gmap string V :=
  foldl (λ d kv, <[kv.1 := kv.2]> d) ∅ (zip ks vs).

(** [{k: f(k) for k in ks}] *)
Definition dict_comp {V} (f : string → V) (ks : list string) : gmap string V :=
  foldl (λ d k, <[k := f k]> d) ∅ ks.

(** [for x in l: st = body(st, x)], stopping at the first exception *)
Fixpoint for_each {S A} (body : S → A → result S) (l : list A) (st : S) : result S :=
  match l with
  | [] => Ok st
  | x :: l' => st' ← body st x; for_each body l' st'
  end.

(** [k in d] and [v in d.values()] *)
Definition contains {V} (d : gmap string V) (k : string) : bool :=
  bool_decide (is_Some (d !! k)).
Definition in_values (d : gmap string string) (v : string) : bool :=
  bool_decide (v ∈ (map_to_list d).*2).

(** ** The data model *)

(** One row of the csv, columns [Subject], [Semester], [Professor],
    [Difficult (TRUE/FALSE)], [Lab (TRUE/FALSE)], with its cells typed as
    the data model has them: a name, an integer, a name and two booleans
    (no empty cell). *)
Record Row := {
  Subject : string;
  Semester : Z;
  Professor : string;
  Difficult : bool;
  Lab : bool
}.

(** A domain value [(day, slot)] *)
Definition Value : Type := Z * Z.

(** References to the five bound methods stored in [var_to_cons] *)
Inductive Constraint :=
  | SlotC | LabC | SemesterC | ProfessorC | DifficultyC.

#[global] Instance Constraint_eq_dec : EqDecision Constraint.
Proof. solve_decision. Defined.

Record Exams := {
  semesters : gmap string Z;
  professors : gmap string string;
  difficulties : gmap string bool;
  variables : list string;
  laboratories : gmap string string;
  domains : gmap string (list Value);
  neighbors : gmap string (list string);
  var_to_cons : gmap string (list Constraint)
}.

(** ** [Exams.__init__] *)

(** The attributes of [self] that the loop over the subjects updates *)
Record Split := {
  s_variables : list string;
  s_laboratories : gmap string string;
  s_semesters : gmap string Z;
  s_professors : gmap string string;
  s_difficulties : gmap string bool
}.

Definition theory_of (subject : string) : string := subject +:+ " Theory".
Definition lab_of (subject : string) : string := subject +:+ " Lab".

(** Body of [for subject in subjects] *)
Definition split_subject (check_lab : gmap string bool) (st : Split)
    (subject : string) : result Split :=
  has_lab ← getitem check_lab subject;
  if has_lab : bool then
    let theory := theory_of subject in
    let lab := lab_of subject in
    let vars := s_variables st ++ [theory; lab] in
    let labs := <[lab := theory]> (s_laboratories st) in
    '(s, sems) ← pop (s_semesters st) subject;
    let sems := <[theory := s]> sems in
    '(p, profs) ← pop (s_professors st) subject;
    let profs := <[theory := p]> profs in
    '(d, diffs) ← pop (s_difficulties st) subject;
    let diffs := <[theory := d]> diffs in
    Ok {| s_variables := vars; s_laboratories := labs; s_semesters := sems;
          s_professors := profs; s_difficulties := diffs |}
  else
    Ok {| s_variables := s_variables st ++ [subject];
          s_laboratories := s_laboratories st;
          s_semesters := s_semesters st;
          s_professors := s_professors st;
          s_difficulties := s_difficulties st |}.

(** Lines 22-42: the attribute dicts of the csv columns, then the loop *)
Definition split_subjects (data : list Row) : result Split :=
  let subjects := Subject <$> data in
  let check_lab := dict_zip subjects (Lab <$> data) in
  for_each (split_subject check_lab) subjects
    {| s_variables := [];
       s_laboratories := ∅;
       s_semesters := dict_zip subjects (Semester <$> data);
       s_professors := dict_zip subjects (Professor <$> data);
       s_difficulties := dict_zip subjects (Difficult <$> data) |}.

(** [[(i, j) for i in range(21) for j in range(3)]] *)
Definition full_domain : list Value :=
  i ← seqZ 0 21; j ← seqZ 0 3; [(i, j)].

(** [[sub for sub in variables if sub != var]] *)
Definition others (vars : list string) (var : string) : list string :=
  filter (λ sub, sub ≠ var) vars.

(** [self.var_to_cons[var].extend(cs)] *)
Definition extend (vtc : gmap string (list Constraint)) (var : string)
    (cs : list Constraint) : result (gmap string (list Constraint)) :=
  l ← getitem vtc var; Ok (<[var := l ++ cs]> vtc).

(** Body of the loop of lines 48-54 *)
Definition attach (labs : gmap string string) (diffs : gmap string bool)
    (vtc : gmap string (list Constraint)) (var : string)
    : result (gmap string (list Constraint)) :=
  vtc ← (if contains labs var || in_values labs var
         then extend vtc var [LabC] else Ok vtc);
  if negb (contains labs var) then
    vtc ← extend vtc var [SemesterC; ProfessorC];
    d ← getitem diffs var;
    if d : bool then extend vtc var [DifficultyC] else Ok vtc
  else Ok vtc.

(** Lines 47-54: every variable starts with slot-uniqueness, then the loop *)
Definition assemble (labs : gmap string string) (diffs : gmap string bool)
    (vars : list string) : result (gmap string (list Constraint)) :=
  for_each (attach labs diffs) vars (dict_comp (λ _, [SlotC]) vars).

(** The constructor. Its last statement hands the variables, domains,
    neighbours, the five methods and [var_to_cons] to the constructor of
    the base class in module [csp], which is outside this development. *)
Definition Exams_init (data : list Row) : result Exams :=
  st ← split_subjects data;
  let vars := s_variables st in
  let doms := dict_comp (λ _, full_domain) vars in
  let neigh := dict_comp (others vars) vars in
  vtc ← assemble (s_laboratories st) (s_difficulties st) vars;
  Ok {| semesters := s_semesters st;
        professors := s_professors st;
        difficulties := s_difficulties st;
        variables := vars;
        laboratories := s_laboratories st;
        domains := doms;
        neighbors := neigh;
        var_to_cons := vtc |}.

(** ** The constraint predicates *)

Definition slot_constraint (self : Exams)
    (A : string) (a : Value) (B : string) (b : Value) : result bool :=
  Ok (negb (bool_decide (a = b))).

Definition lab_constraint (self : Exams)
    (A : string) (a : Value) (B : string) (b : Value) : result bool :=
  if bool_decide (laboratories self !! A = Some B) then
    Ok ((a.1 =? b.1) && (a.2 =? b.2 + 1))
  else if bool_decide (laboratories self !! B = Some A) then
    Ok ((b.1 =? a.1) && (b.2 =? a.2 + 1))
  else Ok true.

Definition semester_constraint (self : Exams)
    (A : string) (a : Value) (B : string) (b : Value) : result bool :=
  sA ← getitem (semesters self) A;
  sB ← getitem (semesters self) B;
  Ok (negb (sA =? sB) || negb (a.1 =? b.1)).

Definition professor_constraint (self : Exams)
    (A : string) (a : Value) (B : string) (b : Value) : result bool :=
  pA ← getitem (professors self) A;
  pB ← getitem (professors self) B;
  Ok (negb (bool_decide (pA = pB)) || negb (a.1 =? b.1)).

Definition difficulty_constraint (self : Exams)
    (A : string) (a : Value) (B : string) (b : Value) : result bool :=
  Ok (2 <=? Z.abs (a.1 - b.1)).

(** Calling a stored method reference *)
Definition call (self : Exams) (c : Constraint)
    : string → Value → string → Value → result bool :=
  match c with
  | SlotC => slot_constraint self
  | LabC => lab_constraint self
  | SemesterC => semester_constraint self
  | ProfessorC => professor_constraint self
  | DifficultyC => difficulty_constraint self
  end.

(** ** [Exams.display] *)

(** What reaches the console: [print(s)], [print(s, end='\t')], the
    execution-time line (wall-clock readings are not modelled) and a line
    made of a label and a counter. *)
Inductive Out :=
  | Line (s : string)
  | Cell (s : string)
  | ExecutionTime
  | Count (label : string) (n : Z).

(** Printing code: the text written so far, and a value or an exception *)
Definition Print (A : Type) : Type := list Out * result A.

#[global] Instance Print_ret : MRet Print := λ A a, ([], Ok a).
#[global] Instance Print_bind : MBind Print := λ A B f m,
  match m.2 with
  | Ok a => (m.1 ++ (f a).1, (f a).2)
  | Raise e => (m.1, Raise e)
  end.

Definition print (s : string) : Print () := ([Line s], Ok ()).
Definition print_cell (s : string) : Print () := ([Cell s], Ok ()).

(** [for x in l: body(x)] *)
Fixpoint for_ {A} (l : list A) (body : A → Print ()) : Print () :=
  match l with
  | [] => mret ()
  | x :: l' => body x ≫= λ _, for_ l' body
  end.

(** What a search hands back as its result: [None] or a dict from
    variables to values, in insertion order *)
Inductive PyValue :=
  | PyNone
  | PyDict (entries : list (string * Value)).

(** [assignment.items()] *)
Definition items (assignment : PyValue) : Print (list (string * Value)) :=
  match assignment with
  | PyDict entries => mret entries
  | PyNone => ([], Raise (AttributeError "items"))
  end.

Definition DAYS : list string :=
  ["Monday"; "Tuesday"; "Wednesday"; "Thursday"; "Friday"; "Saturday"; "Sunday"].
Definition SLOTS : list string := ["9-11"; "11-1"; "1-3"].
Definition WEEKS : list string := ["First Week"; "Second Week"; "Third Week"].

Definition display (assignment : PyValue) : Print () :=
  for_ (seq 0 3) (λ k,
    print (WEEKS !!! k) ≫= λ _,
    for_ (seq (k * 7) 7) (λ i,
      print (DAYS !!! (i `mod` 7)%nat) ≫= λ _,
      for_ (seq 0 3) (λ j,
        items assignment ≫= λ entries,
        for_ entries (λ entry,
          if bool_decide ((Z.of_nat i, Z.of_nat j) = entry.2)
          then print_cell (SLOTS !!! j +:+ ": " +:+ entry.1)
          else mret ())) ≫= λ _,
      print "") ≫= λ _,
    print "").

(** ** The solving configurations *)

Inductive Selector := mrv | dom_wdeg.
Inductive Inference := forward_checking | mac.

Definition Method : Type := string * option Selector * option Inference.

Definition methods : list Method :=
  [("FC + MRV:", Some mrv, Some forward_checking);
   ("FC + DOM/WDEG:", Some dom_wdeg, Some forward_checking);
   ("MAC + MRV:", Some mrv, Some mac);
   ("MAC + DOM/WDEG:", Some dom_wdeg, Some mac);
   ("MIN_CONFLICTS:", None, None)].

(** The solving engine of module [csp] is a parameter of the harness: the
    searches work on the state [St] of the instance and hand back a
    result, the number of consistency checks and the number of visited
    nodes; [infer_assignment] reads an assignment off that state. *)
Record Engine (St : Type) := {
  backtracking_search :
    St → option Selector → option Inference → (PyValue * Z * Z) * St;
  min_conflicts : St → (PyValue * Z * Z) * St;
  infer_assignment : St → list (string * Value)
}.
Arguments backtracking_search {St} _ _ _ _.
Arguments min_conflicts {St} _ _.
Arguments infer_assignment {St} _ _.

(** The lines printed before the calendar *)
Definition report (name : string) (constraint_checks visited_nodes : Z) : list Out :=
  [Line "--------------------"; Line name; ExecutionTime;
   Count "Number of visited nodes:" visited_nodes;
   Count "Number of consistency checks:" constraint_checks].

(** Body of [for name, var_selector, inference in methods] *)
Definition run_method {St} (csp : Engine St) (m : Method) (exams : St)
    : list Out * result St :=
  let '(name, var_selector, inference) := m in
  let '((result, constraint_checks, visited_nodes), exams') :=
    if bool_decide (name = "MIN_CONFLICTS:")
    then min_conflicts csp exams
    else backtracking_search csp exams var_selector inference in
  let shown :=
    display (if bool_decide (name ≠ "MIN_CONFLICTS:")
             then PyDict (infer_assignment csp exams') else result) in
  (report name constraint_checks visited_nodes ++ shown.1,
   match shown.2 with Ok _ => Ok exams' | Raise e => Raise e end).

(** The loop over the configurations; an exception ends the run. *)
Fixpoint run {St} (csp : Engine St) (ms : list Method) (exams : St)
    : list Out * result St :=
  match ms with
  | [] => ([], Ok exams)
  | m :: ms' =>
      let done := run_method csp m exams in
      match done.2 with
      | Ok exams' => (done.1 ++ (run csp ms' exams').1, (run csp ms' exams').2)
      | Raise e => (done.1, Raise e)
      end
  end.

(** * Catalogues, invariants and sample engines *)

(** ** The scenario catalogue of the specification *)

Definition algorithms : Row :=
  {| Subject := "Algorithms"; Semester := 3; Professor := "A";
     Difficult := true; Lab := true |}.
Definition history : Row :=
  {| Subject := "History"; Semester := 3; Professor := "B";
     Difficult := false; Lab := false |}.
Definition scenario : list Row := [algorithms; history].

(** The value of a computation that did not raise *)
Definition to_option {A} (r : result A) : option A :=
  match r with Ok a => Some a | Raise _ => None end.

Definition on_exams {T} (f : Exams → T) (r : result Exams) : option T :=
  f <$> to_option r.

(** The instance built from a csv, for use where construction is known
    to succeed *)
Definition built (data : list Row) : Exams :=
  match Exams_init data with
  | Ok e => e
  | Raise _ =>
      {| semesters := ∅; professors := ∅; difficulties := ∅; variables := [];
         laboratories := ∅; domains := ∅; neighbors := ∅; var_to_cons := ∅ |}
  end.

(** Catalogues with colliding names *)
Definition algorithms_theory : Row :=
  {| Subject := "Algorithms Theory"; Semester := 5; Professor := "C";
     Difficult := false; Lab := true |}.
Definition algorithms_lab : Row :=
  {| Subject := "Algorithms Lab"; Semester := 7; Professor := "D";
     Difficult := false; Lab := false |}.

(** ** Catalogues without name collisions *)

(** The variable that carries the attributes of a row, and the variables
    a row is split into (section 4.1 of the specification) *)
Definition key_of (r : Row) : string :=
  if Lab r then theory_of (Subject r) else Subject r.
Definition emit (r : Row) : list string :=
  if Lab r then [theory_of (Subject r); lab_of (Subject r)] else [Subject r].

(** The subject names are pairwise distinct, and none of them is the
    Theory or the Lab name derived from a subject with a lab. *)
Definition well_named (data : list Row) : Prop :=
  NoDup (Subject <$> data) ∧
  Forall (λ r, Forall (λ r', Lab r' = true →
            Subject r ≠ theory_of (Subject r') ∧ Subject r ≠ lab_of (Subject r'))
          data) data.

#[global] Instance well_named_dec data : Decision (well_named data).
Proof. unfold well_named. apply _. Defined.

(** ** Invariants of the constructor *)

(** What the loop over the subjects maintains, for every csv: the three
    attribute dicts have the same keys, and every entry of [laboratories]
    maps the Lab name of a subject to its Theory name. *)
Definition split_ok (st : Split) : Prop :=
  dom (s_semesters st) = dom (s_difficulties st) ∧
  dom (s_professors st) = dom (s_difficulties st) ∧
  ∀ l t, s_laboratories st !! l = Some t → ∃ s, l = lab_of s ∧ t = theory_of s.

(** What [attach] appends to the list of [var] *)
Definition attached (labs : gmap string string) (diffs : gmap string bool)
    (var : string) : list Constraint :=
  (if contains labs var || in_values labs var then [LabC] else []) ++
  (if negb (contains labs var)
   then [SemesterC; ProfessorC] ++
        (if diffs !! var is Some true then [DifficultyC] else [])
   else []).

(** After the variables in [pre] have been handled, the list of a variable
    holds slot-uniqueness and, once the variable itself was handled, what
    [attach] adds for it; a handled variable that is not a key of
    [laboratories] has a difficulty flag. *)
Definition cons_inv (labs : gmap string string) (diffs : gmap string bool)
    (vars pre : list string) (vtc : gmap string (list Constraint)) : Prop :=
  (∀ v, v ∈ vars → ∃ l, vtc !! v = Some l ∧
     ∀ c, c ∈ l ↔ c = SlotC ∨ (v ∈ pre ∧ c ∈ attached labs diffs v)) ∧
  (∀ v, v ∈ pre → labs !! v = None → is_Some (diffs !! v)).

(** The facts every constructed instance satisfies, whatever the csv *)
Record constructed (e : Exams) : Prop := {
  c_dom_semesters : dom (semesters e) = dom (difficulties e);
  c_dom_professors : dom (professors e) = dom (difficulties e);
  c_labs : ∀ l t, laboratories e !! l = Some t → ∃ s, l = lab_of s ∧ t = theory_of s;
  c_cons : cons_inv (laboratories e) (difficulties e) (variables e) (variables e)
             (var_to_cons e);
  c_domains : domains e = dict_comp (λ _, full_domain) (variables e);
  c_neighbors : neighbors e = dict_comp (others (variables e)) (variables e)
}.

(** An attribute dict in the middle of the loop: the handled rows are
    keyed by their attribute-carrying variable, the others by subject. *)
Definition attr_map {V} (f : Row → V) (done todo : list Row) : gmap string V :=
  list_to_map (((λ r, (key_of r, f r)) <$> done) ++ ((λ r, (Subject r, f r)) <$> todo)).

(** The state of the loop after the rows [done], with [todo] to come *)
Record split_inv (done todo : list Row) (st : Split) : Prop := {
  i_variables : s_variables st = done ≫= emit;
  i_laboratories : ∀ l t, s_laboratories st !! l = Some t ↔
      ∃ r, r ∈ done ∧ Lab r = true ∧ l = lab_of (Subject r) ∧ t = theory_of (Subject r);
  i_semesters : s_semesters st = attr_map Semester done todo;
  i_professors : s_professors st = attr_map Professor done todo;
  i_difficulties : s_difficulties st = attr_map Difficult done todo
}.

(** What the instance built from a catalogue holds, in terms of the rows *)
Record encodes (data : list Row) (e : Exams) : Prop := {
  e_variables : variables e = data ≫= emit;
  e_laboratories : ∀ l t, laboratories e !! l = Some t ↔
      ∃ r, r ∈ data ∧ Lab r = true ∧ l = lab_of (Subject r) ∧ t = theory_of (Subject r);
  e_semesters : ∀ k v, semesters e !! k = Some v ↔
      ∃ r, r ∈ data ∧ k = key_of r ∧ v = Semester r;
  e_professors : ∀ k v, professors e !! k = Some v ↔
      ∃ r, r ∈ data ∧ k = key_of r ∧ v = Professor r;
  e_difficulties : ∀ k v, difficulties e !! k = Some v ↔
      ∃ r, r ∈ data ∧ k = key_of r ∧ v = Difficult r
}.

(** ** Sample engines *)

(** An engine whose searches find nothing and leave one variable of the
    scenario with a single value, and an engine that reports that value as
    the solution of a one-variable problem, with the same counters *)
Definition exhausted : Engine () :=
  {| backtracking_search := λ st _ _, ((PyNone, 120, 40), st);
     min_conflicts := λ st, ((PyNone, 120, 40), st);
     infer_assignment := λ _, [("History", (0, 0))] |}.
Definition solved : Engine () :=
  {| backtracking_search := λ st _ _, ((PyDict [("History", (0, 0))], 120, 40), st);
     min_conflicts := λ st, ((PyDict [("History", (0, 0))], 120, 40), st);
     infer_assignment := λ _, [("History", (0, 0))] |}.

(** ** More on the constructor and the renderer *)

(** The lab flag that [check_lab] holds for a subject: the one of the last
    row with that subject (false for a subject of no row) *)
Definition lab_flag (data : list Row) (s : string) : bool :=
  from_option Lab false (last (filter (λ r, Subject r = s) data)).

(** The variables a subject is split into, given its lab flag *)
Definition split_of (flag : string → bool) (s : string) : list string :=
  if flag s then [theory_of s; lab_of s] else [s].

(** The predicate lists while the loop of lines 48-54 runs: a variable
    has slot-uniqueness, then what [attach] adds, once for each time its
    name has come up in [pre]. *)
Definition cons_exact (labs : gmap string string) (diffs : gmap string bool)
    (vars pre : list string) (vtc : gmap string (list Constraint)) : Prop :=
  ∀ v, v ∈ vars →
    vtc !! v = Some (SlotC :: (filter (λ x, x = v) pre ≫= λ _, attached labs diffs v)).

(** Every entry of [laboratories] sits in the variable list as the Theory
    variable immediately followed by the Lab variable. *)
Definition adjacent_labs (vars : list string) (labs : gmap string string) : Prop :=
  ∀ l t, labs !! l = Some t → ∃ pre suf, vars = pre ++ t :: l :: suf.

(** The state of the loop over the subjects after the names [pre], for
    every csv: the variables and lab entries follow the lab flags; a
    subject without a lab flag, and a subject still to come, has its
    difficulty; a variable that is not a Lab variable and has lost its
    difficulty is a subject with a lab flag. *)
Record split_trace (data : list Row) (pre : list string) (st : Split) : Prop := {
  t_variables : s_variables st = pre ≫= split_of (lab_flag data);
  t_laboratories : ∀ l t, s_laboratories st !! l = Some t ↔
      ∃ s, s ∈ pre ∧ lab_flag data s = true ∧ l = lab_of s ∧ t = theory_of s;
  t_plain : ∀ s, s ∈ Subject <$> data → lab_flag data s = false →
      s ∈ dom (s_difficulties st);
  t_pending : ∀ s, s ∈ Subject <$> data → s ∉ pre → s ∈ dom (s_difficulties st);
  t_covered : ∀ v, v ∈ s_variables st →
      v ∈ dom (s_laboratories st) ∨ v ∈ dom (s_difficulties st) ∨
      (v ∈ Subject <$> data ∧ lab_flag data v = true)
}.

(** The cells of a printed text *)
Definition is_cell (o : Out) : bool :=
  match o with Cell _ => true | _ => false end.

(** The cell that shows an entry of an assignment *)
Definition cell_of (entry : string * Value) : Out :=
  Cell (SLOTS !!! Z.to_nat entry.2.2 +:+ ": " +:+ entry.1).

(** What the innermost loop of [display] prints for slot [j] of day [i] *)
Definition cells_at (entries : list (string * Value)) (i j : nat) : list Out :=
  entries ≫= λ entry,
    if bool_decide ((Z.of_nat i, Z.of_nat j) = entry.2)
    then [Cell (SLOTS !!! j +:+ ": " +:+ entry.1)] else [].

(** The text of a calendar: week by week the name of the week, day by day
    the name of the day, the cells of its three slots and the end of the
    line, and an empty line after each week *)
Definition calendar (entries : list (string * Value)) : list Out :=
  seq 0 3 ≫= λ k,
    Line (WEEKS !!! k) ::
    (seq (k * 7) 7 ≫= λ i,
       Line (DAYS !!! (i `mod` 7)%nat) ::
       (seq 0 3 ≫= λ j, cells_at entries i j) ++ [Line ""]) ++ [Line ""].

(** The pairs (day, slot) in the order in which [display] visits them *)
Definition grid : list (nat * nat) :=
  seq 0 3 ≫= λ k, seq (k * 7) 7 ≫= λ i, seq 0 3 ≫= λ j, [(i, j)].

(** Decidable facts about a concrete instance, by evaluation *)
Ltac decide_by_compute := apply (bool_decide_unpack _); vm_compute; exact I.

(** * Properties *)

Example scenario_variables :
  on_exams variables (Exams_init scenario)
  = Some ["Algorithms Theory"; "Algorithms Lab"; "History"].
Proof. vm_compute. reflexivity. Qed.

Example scenario_cons :
  on_exams (λ e, (var_to_cons e !! "Algorithms Theory",
                  var_to_cons e !! "Algorithms Lab",
                  var_to_cons e !! "History")) (Exams_init scenario)
  = Some (Some [SlotC; LabC; SemesterC; ProfessorC; DifficultyC],
          Some [SlotC; LabC], Some [SlotC; SemesterC; ProfessorC]).
Proof. vm_compute. reflexivity. Qed.

(** ** Names of the split variables *)

Lemma list_ascii_of_string_app (s t : string) :
  String.list_ascii_of_string (s +:+ t)
  = String.list_ascii_of_string s ++ String.list_ascii_of_string t.
Proof. induction s as [|c s IH]; simpl; [done|]. by rewrite IH. Qed.

Lemma list_ascii_of_string_inj (s t : string) :
  String.list_ascii_of_string s = String.list_ascii_of_string t → s = t.
Proof.
  intros H. rewrite <- (String.string_of_list_ascii_of_string s),
    <- (String.string_of_list_ascii_of_string t). by rewrite H.
Qed.

Lemma theory_of_inj (s t : string) : theory_of s = theory_of t → s = t.
Proof.
  unfold theory_of. intros H%(f_equal String.list_ascii_of_string).
  rewrite !list_ascii_of_string_app in H.
  apply app_inj_2 in H as [H _]; [|done].
  by apply list_ascii_of_string_inj.
Qed.

Lemma lab_of_inj (s t : string) : lab_of s = lab_of t → s = t.
Proof.
  unfold lab_of. intros H%(f_equal String.list_ascii_of_string).
  rewrite !list_ascii_of_string_app in H.
  apply app_inj_2 in H as [H _]; [|done].
  by apply list_ascii_of_string_inj.
Qed.

Lemma theory_ne_lab (s t : string) : theory_of s ≠ lab_of t.
Proof.
  unfold theory_of, lab_of. intros H%(f_equal String.list_ascii_of_string).
  rewrite !list_ascii_of_string_app in H.
  apply (f_equal reverse) in H. rewrite !reverse_app in H.
  vm_compute (reverse (String.list_ascii_of_string " Theory")) in H.
  vm_compute (reverse (String.list_ascii_of_string " Lab")) in H.
  simpl in H. discriminate.
Qed.

(** ** The error monad and the loops *)

Lemma bind_Ok {A B} (m : result A) (f : A → result B) (b : B) :
  m ≫= f = Ok b ↔ ∃ a, m = Ok a ∧ f a = Ok b.
Proof.
  destruct m as [a|e]; simpl; split.
  - intros H. by exists a.
  - by intros (a' & [= ->] & H).
  - intros [=].
  - by intros (a' & [=] & _).
Qed.

Lemma getitem_Ok {V} (d : gmap string V) k v : getitem d k = Ok v ↔ d !! k = Some v.
Proof. unfold getitem. destruct (d !! k); split; intros [=]; by subst. Qed.

Lemma pop_Ok {V} (d : gmap string V) k v d' :
  pop d k = Ok (v, d') ↔ d !! k = Some v ∧ d' = delete k d.
Proof.
  unfold pop. destruct (d !! k); split; try by intros [=].
  - by intros [= -> <-].
  - by intros [[= ->] ->].
  - by intros [[=] _].
Qed.

Lemma contains_true {V} (d : gmap string V) k : contains d k = true ↔ is_Some (d !! k).
Proof. unfold contains. by rewrite bool_decide_eq_true. Qed.

Lemma contains_false {V} (d : gmap string V) k : contains d k = false ↔ d !! k = None.
Proof. unfold contains. by rewrite bool_decide_eq_false, eq_None_not_Some. Qed.

Lemma in_values_true (d : gmap string string) v :
  in_values d v = true ↔ ∃ k, d !! k = Some v.
Proof.
  unfold in_values. rewrite bool_decide_eq_true, list_elem_of_fmap. split.
  - intros [[k v'] [-> Hin]]. exists k. by apply elem_of_map_to_list.
  - intros [k Hk]. exists (k, v). split; [done|]. by apply elem_of_map_to_list.
Qed.

Lemma for_each_fmap {S A B} (g : A → B) (body : S → B → result S) l st :
  for_each body (g <$> l) st = for_each (λ s x, body s (g x)) l st.
Proof.
  revert st. induction l as [|x l IH]; intros st; simpl; [done|].
  destruct (body st (g x)); simpl; [apply IH | done].
Qed.

Lemma for_each_app {S A} (body : S → A → result S) l1 l2 st :
  for_each body (l1 ++ l2) st = for_each body l1 st ≫= for_each body l2.
Proof.
  revert st. induction l1 as [|x l1 IH]; intros st; simpl; [done|].
  destruct (body st x); simpl; [apply IH | done].
Qed.

(** A property of the processed prefix and the state is carried through
    the loop; a step knows where in the list it stands. *)
Lemma for_each_inv {S A} (P : list A → S → Prop) (body : S → A → result S) :
  ∀ todo pre st st',
    (∀ pre' x suf s s', pre ++ todo = pre' ++ x :: suf →
       P pre' s → body s x = Ok s' → P (pre' ++ [x]) s') →
    P pre st → for_each body todo st = Ok st' → P (pre ++ todo) st'.
Proof.
  induction todo as [|x todo IH]; intros pre st st' Hstep HP Hrun; simpl in *.
  - rewrite app_nil_r. by simplify_eq.
  - apply bind_Ok in Hrun as (s1 & Hb & Hrun).
    rewrite cons_middle, app_assoc. eapply IH; [| |done].
    + intros pre' y suf s s' Heq. apply (Hstep pre' y suf).
      by rewrite <- Heq, <- app_assoc.
    + by apply (Hstep pre x todo st).
Qed.

(** The loop runs to its end when every step that starts from the invariant does. *)
Lemma for_each_total {S A} (P : list A → S → Prop) (body : S → A → result S) :
  ∀ todo pre st,
    (∀ pre' x suf s, pre ++ todo = pre' ++ x :: suf →
       P pre' s → ∃ s', body s x = Ok s' ∧ P (pre' ++ [x]) s') →
    P pre st → ∃ st', for_each body todo st = Ok st' ∧ P (pre ++ todo) st'.
Proof.
  induction todo as [|x todo IH]; intros pre st Hstep HP; simpl.
  - exists st. by rewrite app_nil_r.
  - destruct (Hstep pre x todo st) as (s1 & Hb & HP1); [done..|].
    rewrite Hb. simpl. rewrite cons_middle, app_assoc. apply IH; [|done].
    intros pre' y suf s Heq. apply (Hstep pre' y suf).
    by rewrite <- Heq, <- app_assoc.
Qed.

(** ** Dict construction *)

Lemma dict_comp_foldl {V} (f : string → V) ks (d : gmap string V) k :
  foldl (λ d k, <[k := f k]> d) d ks !! k
  = if bool_decide (k ∈ ks) then Some (f k) else d !! k.
Proof.
  revert d. induction ks as [|x ks IH]; intros d; cbn [foldl].
  - by rewrite bool_decide_eq_false_2 by apply not_elem_of_nil.
  - rewrite IH. destruct (decide (k ∈ ks)) as [Hin|Hnin].
    + rewrite !bool_decide_eq_true_2; [done| by right | done].
    + rewrite (bool_decide_eq_false_2 (k ∈ ks)) by done.
      destruct (decide (k = x)) as [->|Hne].
      * rewrite bool_decide_eq_true_2 by left. by rewrite lookup_insert_eq.
      * rewrite bool_decide_eq_false_2 by (rewrite elem_of_cons; naive_solver).
        by rewrite lookup_insert_ne.
Qed.

Lemma dict_comp_lookup {V} (f : string → V) ks k :
  dict_comp f ks !! k = if bool_decide (k ∈ ks) then Some (f k) else None.
Proof. unfold dict_comp. by rewrite dict_comp_foldl, lookup_empty. Qed.

Lemma dict_zip_fmap {V} (f : Row → V) (data : list Row) :
  dict_zip (Subject <$> data) (f <$> data)
  = foldl (λ d r, <[Subject r := f r]> d) ∅ data.
Proof.
  unfold dict_zip. generalize (∅ : gmap string V).
  induction data as [|r data IH]; intros d; simpl; [done|]. apply IH.
Qed.

Lemma foldl_insert_dom {V} (f : Row → V) (data : list Row) (d : gmap string V) :
  dom (foldl (λ d r, <[Subject r := f r]> d) d data)
  = list_to_set (Subject <$> data) ∪ dom d.
Proof.
  revert d. induction data as [|r data IH]; intros d; simpl.
  - set_solver.
  - rewrite IH, dom_insert_L. set_solver.
Qed.

Lemma dict_zip_dom {V} (f : Row → V) (data : list Row) :
  dom (dict_zip (Subject <$> data) (f <$> data)) = list_to_set (Subject <$> data).
Proof. rewrite dict_zip_fmap, foldl_insert_dom. set_solver. Qed.

Lemma foldl_insert_list_to_map {V} (f : Row → V) (data : list Row) (d : gmap string V) :
  NoDup (Subject <$> data) →
  foldl (λ d r, <[Subject r := f r]> d) d data
  = list_to_map ((λ r, (Subject r, f r)) <$> data) ∪ d.
Proof.
  revert d. induction data as [|r data IH]; intros d Hnd; simpl.
  - by rewrite (left_id_L ∅ (∪)).
  - rewrite fmap_cons in Hnd. apply NoDup_cons in Hnd as [Hnin Hnd].
    rewrite IH by done. rewrite <- insert_union_l.
    rewrite insert_union_r; [done|].
    apply not_elem_of_list_to_map_1. by rewrite <- list_fmap_compose.
Qed.

Lemma dict_zip_list_to_map {V} (f : Row → V) (data : list Row) :
  NoDup (Subject <$> data) →
  dict_zip (Subject <$> data) (f <$> data)
  = list_to_map ((λ r, (Subject r, f r)) <$> data).
Proof.
  intros Hnd. rewrite dict_zip_fmap, foldl_insert_list_to_map by done.
  by rewrite (right_id_L ∅ (∪)).
Qed.

(** ** What the loop over the subjects maintains, for every csv *)

Lemma split_subject_ok check_lab st subject st' :
  split_ok st → split_subject check_lab st subject = Ok st' → split_ok st'.
Proof.
  intros (Hs & Hp & Hl). unfold split_subject.
  intros (has_lab & _ & H)%bind_Ok. destruct has_lab.
  - apply bind_Ok in H as ([s sems] & [_ ->]%pop_Ok & H).
    apply bind_Ok in H as ([p' profs] & [_ ->]%pop_Ok & H).
    apply bind_Ok in H as ([d diffs] & [_ ->]%pop_Ok & H).
    injection H as <-. repeat split; simpl.
    + by rewrite !dom_insert_L, !dom_delete_L, Hs.
    + by rewrite !dom_insert_L, !dom_delete_L, Hp.
    + intros l t [[<- <-]|[_ Hlt]]%lookup_insert_Some; eauto.
  - injection H as <-. by repeat split.
Qed.

Lemma split_subjects_ok data st : split_subjects data = Ok st → split_ok st.
Proof.
  unfold split_subjects. intros H.
  apply (for_each_inv (λ _, split_ok) _ _ []) in H; [done| |].
  - intros _ x _ s s' _. apply split_subject_ok.
  - repeat split; simpl.
    + by rewrite !dict_zip_dom.
    + by rewrite !dict_zip_dom.
    + intros l t. by rewrite lookup_empty.
Qed.

(** No variable is both the Lab of another and its Theory. *)
Lemma lab_not_mutual (labs : gmap string string) (A B : string) :
  (∀ l t, labs !! l = Some t → ∃ s, l = lab_of s ∧ t = theory_of s) →
  labs !! A = Some B → labs !! B ≠ Some A.
Proof.
  intros Hl HA HB. destruct (Hl _ _ HA) as (s & -> & ->).
  destruct (Hl _ _ HB) as (s' & Habs & _). by apply theory_ne_lab in Habs.
Qed.

(** ** The predicate lists *)

Lemma attach_spec labs diffs vtc var l :
  vtc !! var = Some l →
  attach labs diffs vtc var
  = if negb (contains labs var) && bool_decide (diffs !! var = None)
    then Raise (KeyError var)
    else Ok (<[var := l ++ attached labs diffs var]> vtc).
Proof.
  intros Hl. unfold attach, attached, extend, getitem. rewrite Hl.
  destruct (contains labs var), (in_values labs var); simpl;
    rewrite ?lookup_insert_eq, ?Hl; simpl;
    destruct (diffs !! var) as [[]|]; simpl;
    rewrite ?lookup_insert_eq; simpl;
    rewrite ?insert_insert_eq, <- ?app_assoc, ?app_nil_r; simpl; done.
Qed.

Lemma elem_of_attached labs diffs var c :
  c ∈ attached labs diffs var ↔
  match c with
  | SlotC => False
  | LabC => is_Some (labs !! var) ∨ ∃ l, labs !! l = Some var
  | SemesterC | ProfessorC => labs !! var = None
  | DifficultyC => labs !! var = None ∧ diffs !! var = Some true
  end.
Proof.
  unfold attached. rewrite elem_of_app.
  assert (contains labs var || in_values labs var = true
          ↔ is_Some (labs !! var) ∨ ∃ l, labs !! l = Some var) as HL.
  { by rewrite orb_true_iff, contains_true, in_values_true. }
  assert (negb (contains labs var) = true ↔ labs !! var = None) as HN.
  { by rewrite negb_true_iff, contains_false. }
  destruct (contains labs var || in_values labs var);
    destruct (negb (contains labs var));
    destruct (diffs !! var) as [[]|]; destruct c;
    simpl; rewrite ?elem_of_cons, ?elem_of_nil; intuition congruence.
Qed.

Lemma cons_inv_init labs diffs vars :
  cons_inv labs diffs vars [] (dict_comp (λ _, [SlotC]) vars).
Proof.
  split.
  - intros v Hv. exists [SlotC]. split.
    + by rewrite dict_comp_lookup, bool_decide_eq_true_2.
    + intros c. rewrite list_elem_of_singleton, elem_of_nil. naive_solver.
  - intros v Hv. by apply elem_of_nil in Hv.
Qed.

Lemma cons_inv_attach labs diffs vars pre vtc x l :
  x ∈ vars → vtc !! x = Some l → (labs !! x = None → is_Some (diffs !! x)) →
  cons_inv labs diffs vars pre vtc →
  cons_inv labs diffs vars (pre ++ [x]) (<[x := l ++ attached labs diffs x]> vtc).
Proof.
  intros Hx Hl Hd [Hinv Hdiff]. split.
  - intros v Hv. destruct (decide (v = x)) as [->|Hne].
    + rewrite lookup_insert_eq. eexists; split; [done|]. intros c.
      destruct (Hinv x Hx) as (l' & Hl' & Hc). simplify_eq.
      rewrite elem_of_app, Hc, elem_of_app, list_elem_of_singleton. naive_solver.
    + rewrite lookup_insert_ne by done.
      destruct (Hinv v Hv) as (l' & Hl' & Hc). exists l'. split; [done|].
      intros c. rewrite Hc, elem_of_app, list_elem_of_singleton. naive_solver.
  - intros v [Hv| ->%list_elem_of_singleton]%elem_of_app; auto.
Qed.

Lemma attach_Ok labs diffs vars pre vtc x vtc' :
  x ∈ vars → cons_inv labs diffs vars pre vtc →
  attach labs diffs vtc x = Ok vtc' → cons_inv labs diffs vars (pre ++ [x]) vtc'.
Proof.
  intros Hx Hinv. destruct (proj1 Hinv x Hx) as (l & Hl & _).
  rewrite (attach_spec _ _ _ _ _ Hl).
  destruct (contains labs x) eqn:Hc; simpl.
  - intros [= <-]. apply cons_inv_attach; try done.
    apply contains_true in Hc as [t Ht]. by rewrite Ht.
  - case_bool_decide as Hd; [done|]. intros [= <-].
    apply cons_inv_attach; try done. intros _. by apply not_eq_None_Some.
Qed.

Lemma attach_total labs diffs vars pre vtc x :
  x ∈ vars → (labs !! x = None → is_Some (diffs !! x)) →
  cons_inv labs diffs vars pre vtc →
  ∃ vtc', attach labs diffs vtc x = Ok vtc' ∧ cons_inv labs diffs vars (pre ++ [x]) vtc'.
Proof.
  intros Hx Hd Hinv. destruct (proj1 Hinv x Hx) as (l & Hl & _).
  rewrite (attach_spec _ _ _ _ _ Hl). eexists. split; [|by apply cons_inv_attach].
  destruct (contains labs x) eqn:Hc; simpl; [done|].
  apply contains_false in Hc. destruct (Hd Hc) as [d Hd'].
  by rewrite bool_decide_eq_false_2 by (rewrite Hd'; done).
Qed.

Lemma assemble_Ok labs diffs vars vtc :
  assemble labs diffs vars = Ok vtc → cons_inv labs diffs vars vars vtc.
Proof.
  intros H. apply (for_each_inv (cons_inv labs diffs vars) _ _ []) in H; [done| |].
  - intros pre x suf s s' Heq. apply attach_Ok.
    rewrite app_nil_l in Heq. rewrite Heq. set_solver.
  - apply cons_inv_init.
Qed.

Lemma assemble_total labs diffs vars :
  (∀ v, v ∈ vars → labs !! v = None → is_Some (diffs !! v)) →
  ∃ vtc, assemble labs diffs vars = Ok vtc.
Proof.
  intros Hd.
  destruct (for_each_total (cons_inv labs diffs vars) (attach labs diffs)
              vars [] (dict_comp (λ _, [SlotC]) vars)) as (vtc & H & _).
  - intros pre x suf s Heq. rewrite app_nil_l in Heq.
    assert (x ∈ vars) by (rewrite Heq; set_solver). apply attach_total; auto.
  - apply cons_inv_init.
  - by exists vtc.
Qed.

(** ** A constructed instance *)

Lemma Exams_init_Ok data e :
  Exams_init data = Ok e ↔
  ∃ st vtc, split_subjects data = Ok st ∧
    assemble (s_laboratories st) (s_difficulties st) (s_variables st) = Ok vtc ∧
    e = {| semesters := s_semesters st; professors := s_professors st;
           difficulties := s_difficulties st; variables := s_variables st;
           laboratories := s_laboratories st;
           domains := dict_comp (λ _, full_domain) (s_variables st);
           neighbors := dict_comp (others (s_variables st)) (s_variables st);
           var_to_cons := vtc |}.
Proof.
  unfold Exams_init, assemble. rewrite bind_Ok. split.
  - intros (st & Hst & (vtc & Hvtc & [= <-])%bind_Ok). by exists st, vtc.
  - intros (st & vtc & Hst & Hvtc & ->). exists st. split; [done|].
    apply bind_Ok. by exists vtc.
Qed.

Lemma Exams_init_constructed data e : Exams_init data = Ok e → constructed e.
Proof.
  intros (st & vtc & Hst & Hvtc & ->)%Exams_init_Ok.
  destruct (split_subjects_ok _ _ Hst) as (Hs & Hp & Hl).
  split; simpl; try done. by apply assemble_Ok.
Qed.

(** A variable that is not a key of [laboratories] has all three attributes. *)
Lemma constructed_attrs e v :
  constructed e → v ∈ variables e → laboratories e !! v = None →
  is_Some (semesters e !! v) ∧ is_Some (professors e !! v) ∧
  is_Some (difficulties e !! v).
Proof.
  intros He Hv Hl. assert (is_Some (difficulties e !! v)) as Hd.
  { by apply (proj2 (c_cons e He)). }
  rewrite <- !elem_of_dom in *.
  by rewrite (c_dom_semesters e He), (c_dom_professors e He).
Qed.

Lemma constructed_cons e v :
  constructed e → v ∈ variables e →
  ∃ cs, var_to_cons e !! v = Some cs ∧
    ∀ c, c ∈ cs ↔ c = SlotC ∨ c ∈ attached (laboratories e) (difficulties e) v.
Proof.
  intros He Hv. destruct (proj1 (c_cons e He) v Hv) as (cs & Hcs & Hc).
  exists cs. split; [done|]. intros c. rewrite Hc. naive_solver.
Qed.

Lemma constructed_neighbors e A ns B :
  constructed e → neighbors e !! A = Some ns → B ∈ ns →
  A ∈ variables e ∧ B ∈ variables e ∧ B ≠ A.
Proof.
  intros He. rewrite (c_neighbors e He), dict_comp_lookup.
  case_bool_decide as HA; [|done]. intros [= <-].
  unfold others. rewrite list_elem_of_filter. naive_solver.
Qed.

Lemma elem_of_full_domain (a : Value) :
  a ∈ full_domain ↔ (0 ≤ a.1 < 21) ∧ (0 ≤ a.2 < 3).
Proof.
  unfold full_domain. rewrite list_elem_of_bind. split.
  - intros (i & (j & ->%list_elem_of_singleton & Hj%elem_of_seqZ)%list_elem_of_bind
              & Hi%elem_of_seqZ).
    simpl. lia.
  - intros [Hd Hs]. exists a.1. split; [|apply elem_of_seqZ; lia].
    apply list_elem_of_bind. exists a.2. split; [|apply elem_of_seqZ; lia].
    apply list_elem_of_singleton. by destruct a.
Qed.

(** ** The lab-ordering predicate *)

Lemma lab_constraint_lab_first e L T a b :
  laboratories e !! L = Some T →
  lab_constraint e L a T b = Ok (bool_decide (a.1 = b.1 ∧ a.2 = b.2 + 1)).
Proof.
  intros HL. unfold lab_constraint. rewrite bool_decide_eq_true_2 by done.
  f_equal. apply eq_bool_prop_intro.
  rewrite andb_True, !Is_true_true, !Z.eqb_eq, bool_decide_eq_true. done.
Qed.

Lemma lab_constraint_theory_first e L T a b :
  constructed e → laboratories e !! L = Some T →
  lab_constraint e T b L a = Ok (bool_decide (a.1 = b.1 ∧ a.2 = b.2 + 1)).
Proof.
  intros He HL. unfold lab_constraint.
  rewrite bool_decide_eq_false_2
    by (by apply (lab_not_mutual (laboratories e) L T (c_labs e He))).
  rewrite bool_decide_eq_true_2 by done.
  f_equal. apply eq_bool_prop_intro.
  rewrite andb_True, !Is_true_true, !Z.eqb_eq, bool_decide_eq_true. done.
Qed.

Lemma lab_constraint_unrelated e A B a b :
  laboratories e !! A ≠ Some B → laboratories e !! B ≠ Some A →
  lab_constraint e A a B b = Ok true.
Proof.
  intros HA HB. unfold lab_constraint. by rewrite !bool_decide_eq_false_2.
Qed.

(** C4. On a constructed instance, for a Lab variable [L] with registered
    Theory variable [T], lab-ordering holds, in either order of the pair,
    iff the day of the Lab equals the day of the Theory and the slot of the
    Lab is the slot of the Theory plus one; for a pair where neither
    variable is the registered partner of the other it returns true. *)
Theorem lab_ordering data e :
  Exams_init data = Ok e →
  (∀ L T a b, laboratories e !! L = Some T →
     lab_constraint e L a T b = Ok (bool_decide (a.1 = b.1 ∧ a.2 = b.2 + 1)) ∧
     lab_constraint e T b L a = Ok (bool_decide (a.1 = b.1 ∧ a.2 = b.2 + 1))) ∧
  (∀ A B a b, laboratories e !! A ≠ Some B → laboratories e !! B ≠ Some A →
     lab_constraint e A a B b = Ok true).
Proof.
  intros He%Exams_init_constructed. split.
  - intros L T a b HL. split.
    + by apply lab_constraint_lab_first.
    + by apply lab_constraint_theory_first.
  - intros A B a b. apply lab_constraint_unrelated.
Qed.

Lemma lab_ordering_witness :
  Exams_init scenario = Ok (built scenario) ∧
  lab_constraint (built scenario) "Algorithms Lab" (5, 1) "Algorithms Theory" (5, 0)
  = Ok true ∧
  lab_constraint (built scenario) "Algorithms Theory" (5, 0) "Algorithms Lab" (5, 1)
  = Ok true ∧
  lab_constraint (built scenario) "History" (5, 0) "Algorithms Lab" (5, 1) = Ok true.
Proof.
  assert (Exams_init scenario = Ok (built scenario)) as H by (vm_compute; reflexivity).
  split; [exact H|].
  destruct (lab_ordering scenario (built scenario) H) as [Hpair Hother].
  destruct (Hpair "Algorithms Lab" "Algorithms Theory" (5, 1) (5, 0)) as [H1 H2].
  { vm_compute. reflexivity. }
  split; [exact H1|]. split; [exact H2|].
  apply Hother; vm_compute; discriminate.
Defined.

(** C5. On a constructed instance, when the Theory variable of a Lab
    variable holds a value with slot index 2, lab-ordering returns false,
    without raising, for every domain value of the Lab variable, in either
    order of the pair. *)
Theorem lab_after_last_slot data e L T a b :
  Exams_init data = Ok e → laboratories e !! L = Some T →
  b.2 = 2 → a ∈ full_domain →
  lab_constraint e L a T b = Ok false ∧ lab_constraint e T b L a = Ok false.
Proof.
  intros He%Exams_init_constructed HL Hb [_ Ha]%elem_of_full_domain.
  rewrite (lab_constraint_lab_first e L T a b HL).
  rewrite (lab_constraint_theory_first e L T a b He HL).
  rewrite bool_decide_eq_false_2 by lia. done.
Qed.

Lemma lab_after_last_slot_witness :
  lab_constraint (built scenario) "Algorithms Lab" (5, 2) "Algorithms Theory" (5, 2)
  = Ok false ∧
  lab_constraint (built scenario) "Algorithms Theory" (5, 2) "Algorithms Lab" (5, 2)
  = Ok false.
Proof.
  apply (lab_after_last_slot scenario (built scenario)
           "Algorithms Lab" "Algorithms Theory" (5, 2) (5, 2)).
  - vm_compute. reflexivity.
  - vm_compute. reflexivity.
  - reflexivity.
  - apply elem_of_full_domain. simpl. lia.
Defined.

(** ** Which predicates a variable carries *)

(** C7. On a constructed instance every variable has a predicate list; it
    contains slot-uniqueness; it contains lab-ordering exactly when the
    variable is a key of [laboratories] (a Lab variable) or a value of it
    (a Theory variable referenced by a Lab variable); it contains
    semester-uniqueness, and professor-uniqueness, exactly when the
    variable is not a Lab variable; for a variable that is not a Lab
    variable it contains difficulty-separation exactly when the difficulty
    flag is true. So a Lab variable carries slot-uniqueness and
    lab-ordering only, and a difficult Theory variable referenced by a Lab
    variable carries all five. *)
Theorem predicate_lists data e v :
  Exams_init data = Ok e → v ∈ variables e →
  ∃ cs, var_to_cons e !! v = Some cs ∧
    SlotC ∈ cs ∧
    (LabC ∈ cs ↔ is_Some (laboratories e !! v) ∨ ∃ l, laboratories e !! l = Some v) ∧
    (SemesterC ∈ cs ↔ laboratories e !! v = None) ∧
    (ProfessorC ∈ cs ↔ laboratories e !! v = None) ∧
    (laboratories e !! v = None →
       (DifficultyC ∈ cs ↔ difficulties e !! v = Some true)) ∧
    (is_Some (laboratories e !! v) → ∀ c, c ∈ cs ↔ c = SlotC ∨ c = LabC) ∧
    ((∃ l, laboratories e !! l = Some v) → difficulties e !! v = Some true →
       ∀ c, c ∈ cs).
Proof.
  intros He%Exams_init_constructed Hv.
  destruct (constructed_cons e v He Hv) as (cs & Hcs & Hc).
  exists cs. split_and!; [done|..].
  - apply Hc. by left.
  - rewrite Hc, elem_of_attached. naive_solver.
  - rewrite Hc, elem_of_attached. naive_solver.
  - rewrite Hc, elem_of_attached. naive_solver.
  - intros Hn. rewrite Hc, elem_of_attached. naive_solver.
  - intros [t Ht] c. rewrite Hc, elem_of_attached, Ht. destruct c; naive_solver.
  - intros [l Hl] Hd c.
    assert (laboratories e !! v = None) as Hnone.
    { destruct (laboratories e !! v) as [t|] eqn:Ht; [|done].
      destruct (c_labs e He _ _ Hl) as (s & _ & ->).
      destruct (c_labs e He _ _ Ht) as (s' & Habs & _).
      by apply theory_ne_lab in Habs. }
    apply Hc. destruct c; [by left|right; apply elem_of_attached..]; eauto.
Qed.

Lemma predicate_lists_witness :
  ∃ cs, var_to_cons (built scenario) !! "Algorithms Theory" = Some cs ∧
    SlotC ∈ cs ∧ LabC ∈ cs ∧ SemesterC ∈ cs ∧ ProfessorC ∈ cs ∧ DifficultyC ∈ cs.
Proof.
  destruct (predicate_lists scenario (built scenario) "Algorithms Theory")
    as (cs & Hcs & Hslot & _ & _ & _ & _ & _ & Hall).
  - vm_compute. reflexivity.
  - decide_by_compute.
  - exists cs. split; [exact Hcs|].
    assert (∀ c, c ∈ cs) as H.
    { apply Hall.
      - exists "Algorithms Lab". vm_compute. reflexivity.
      - vm_compute. reflexivity. }
    repeat split; apply H.
Defined.

(** ** The difficulty-separation predicate *)

(** C1, as the code has it. On a constructed instance difficulty-separation
    is carried exactly by the variables that are not Lab variables and are
    flagged difficult; evaluated on any pair of variables, the second a Lab
    variable or not, it holds iff the absolute difference of the two
    assigned days is at least 2. *)
Theorem difficulty_separation data e A a B b :
  Exams_init data = Ok e → A ∈ variables e →
  ∃ cs, var_to_cons e !! A = Some cs ∧
    (DifficultyC ∈ cs ↔
       laboratories e !! A = None ∧ difficulties e !! A = Some true) ∧
    difficulty_constraint e A a B b = Ok (bool_decide (2 ≤ Z.abs (a.1 - b.1))).
Proof.
  intros He%Exams_init_constructed HA.
  destruct (constructed_cons e A He HA) as (cs & Hcs & Hc).
  exists cs. split; [done|]. split.
  - rewrite Hc, elem_of_attached. naive_solver.
  - unfold difficulty_constraint. f_equal. apply eq_bool_prop_intro.
    by rewrite Is_true_true, Z.leb_le, bool_decide_spec.
Qed.

Lemma difficulty_separation_witness :
  ∃ cs, var_to_cons (built scenario) !! "Algorithms Theory" = Some cs ∧
    (DifficultyC ∈ cs ↔
       laboratories (built scenario) !! "Algorithms Theory" = None ∧
       difficulties (built scenario) !! "Algorithms Theory" = Some true) ∧
    difficulty_constraint (built scenario) "Algorithms Theory" (5, 0) "History" (6, 0)
    = Ok (bool_decide (2 ≤ Z.abs ((5, 0).1 - (6, 0).1))).
Proof.
  apply (difficulty_separation scenario (built scenario)).
  - vm_compute. reflexivity.
  - decide_by_compute.
Defined.

(** C1 as stated fails: "Algorithms Lab" is a Lab variable, difficulty-
    separation is in the list of "Algorithms Theory", and on that pair the
    predicate returns false for two slots of the same day. *)
Lemma difficulty_restricts_lab_pair :
  Exams_init scenario = Ok (built scenario) ∧
  laboratories (built scenario) !! "Algorithms Lab" = Some "Algorithms Theory" ∧
  var_to_cons (built scenario) !! "Algorithms Theory"
  = Some [SlotC; LabC; SemesterC; ProfessorC; DifficultyC] ∧
  call (built scenario) DifficultyC "Algorithms Theory" (5, 0) "Algorithms Lab" (5, 1)
  = Ok false.
Proof. repeat split; vm_compute; reflexivity. Qed.

(** ** Totality of the predicates *)

Lemma semester_constraint_outcome e A a B b :
  ((∃ r : bool, semester_constraint e A a B b = Ok r) ↔
     is_Some (semesters e !! A) ∧ is_Some (semesters e !! B)) ∧
  (¬ (is_Some (semesters e !! A) ∧ is_Some (semesters e !! B)) →
     ∃ k, (k = A ∨ k = B) ∧ semesters e !! k = None ∧
          semester_constraint e A a B b = Raise (KeyError k)).
Proof.
  unfold semester_constraint, getitem.
  destruct (semesters e !! A) as [sA|] eqn:HA; simpl;
    [destruct (semesters e !! B) as [sB|] eqn:HB; simpl|].
  - split; [|intros []; by split]. split; [by intros _|]. intros _. by eexists.
  - split.
    + split; [by intros [? ?]|]. by intros [_ [? ?]].
    + intros _. exists B. by split_and!; [right|..].
  - split.
    + split; [by intros [? ?]|]. by intros [[? ?] _].
    + intros _. exists A. by split_and!; [left|..].
Qed.

Lemma professor_constraint_outcome e A a B b :
  ((∃ r : bool, professor_constraint e A a B b = Ok r) ↔
     is_Some (professors e !! A) ∧ is_Some (professors e !! B)) ∧
  (¬ (is_Some (professors e !! A) ∧ is_Some (professors e !! B)) →
     ∃ k, (k = A ∨ k = B) ∧ professors e !! k = None ∧
          professor_constraint e A a B b = Raise (KeyError k)).
Proof.
  unfold professor_constraint, getitem.
  destruct (professors e !! A) as [pA|] eqn:HA; simpl;
    [destruct (professors e !! B) as [pB|] eqn:HB; simpl|].
  - split; [|intros []; by split]. split; [by intros _|]. intros _. by eexists.
  - split.
    + split; [by intros [? ?]|]. by intros [_ [? ?]].
    + intros _. exists B. by split_and!; [right|..].
  - split.
    + split; [by intros [? ?]|]. by intros [[? ?] _].
    + intros _. exists A. by split_and!; [left|..].
Qed.

(** C2, as the code has it. On a constructed instance, for every pair of
    neighbours [A], [B] and all values, a predicate in the list of [A]
    evaluates to a boolean when [B] is not a Lab variable; slot-uniqueness,
    lab-ordering and difficulty-separation evaluate to a boolean for every
    pair. Semester-uniqueness evaluates to a boolean exactly when both
    variables have a semester, professor-uniqueness exactly when both have
    a professor; otherwise each raises [KeyError] for one of the two
    variables that has none. *)
Theorem predicates_total data e A ns B cs c a b :
  Exams_init data = Ok e →
  neighbors e !! A = Some ns → B ∈ ns →
  var_to_cons e !! A = Some cs → c ∈ cs →
  (laboratories e !! B = None ∨ (c ≠ SemesterC ∧ c ≠ ProfessorC) →
     ∃ r : bool, call e c A a B b = Ok r) ∧
  ((∃ r : bool, semester_constraint e A a B b = Ok r) ↔
     is_Some (semesters e !! A) ∧ is_Some (semesters e !! B)) ∧
  ((∃ r : bool, professor_constraint e A a B b = Ok r) ↔
     is_Some (professors e !! A) ∧ is_Some (professors e !! B)) ∧
  (¬ (is_Some (semesters e !! A) ∧ is_Some (semesters e !! B)) →
     ∃ k, (k = A ∨ k = B) ∧ semesters e !! k = None ∧
          semester_constraint e A a B b = Raise (KeyError k)) ∧
  (¬ (is_Some (professors e !! A) ∧ is_Some (professors e !! B)) →
     ∃ k, (k = A ∨ k = B) ∧ professors e !! k = None ∧
          professor_constraint e A a B b = Raise (KeyError k)).
Proof.
  intros He%Exams_init_constructed Hns HB Hcs Hc.
  split_and!;
    try apply (semester_constraint_outcome e A a B b);
    try apply (professor_constraint_outcome e A a B b).
  intros Hok.
  destruct (constructed_neighbors e A ns B He Hns HB) as (HAv & HBv & _).
  destruct (constructed_cons e A He HAv) as (cs' & Hcs' & Hmem).
  assert (cs' = cs) as -> by congruence.
  apply Hmem in Hc. rewrite elem_of_attached in Hc.
  destruct c; simpl; try (by eexists).
  - unfold lab_constraint. repeat case_bool_decide; by eexists.
  - destruct Hc as [[=]|HA]. destruct Hok as [HBl|[? _]]; [|done].
    destruct (constructed_attrs e A He HAv HA) as ([sA HsA] & _ & _).
    destruct (constructed_attrs e B He HBv HBl) as ([sB HsB] & _ & _).
    unfold semester_constraint, getitem. rewrite HsA, HsB. by eexists.
  - destruct Hc as [[=]|HA]. destruct Hok as [HBl|[_ ?]]; [|done].
    destruct (constructed_attrs e A He HAv HA) as (_ & [pA HpA] & _).
    destruct (constructed_attrs e B He HBv HBl) as (_ & [pB HpB] & _).
    unfold professor_constraint, getitem. rewrite HpA, HpB. by eexists.
Qed.

Lemma predicates_total_witness :
  (∃ r : bool,
     call (built scenario) SemesterC "History" (0, 0) "Algorithms Theory" (0, 1)
     = Ok r) ∧
  ((∃ r : bool,
      semester_constraint (built [algorithms_lab; algorithms])
        "Algorithms Theory" (0, 0) "Algorithms Lab" (0, 1) = Ok r) ↔
   is_Some (semesters (built [algorithms_lab; algorithms]) !! "Algorithms Theory") ∧
   is_Some (semesters (built [algorithms_lab; algorithms]) !! "Algorithms Lab")).
Proof.
  split.
  - apply (predicates_total scenario (built scenario) "History"
             ["Algorithms Theory"; "Algorithms Lab"] "Algorithms Theory"
             [SlotC; SemesterC; ProfessorC]).
    + vm_compute. reflexivity.
    + vm_compute. reflexivity.
    + decide_by_compute.
    + vm_compute. reflexivity.
    + decide_by_compute.
    + left. vm_compute. reflexivity.
  - apply (predicates_total [algorithms_lab; algorithms]
             (built [algorithms_lab; algorithms]) "Algorithms Theory"
             ["Algorithms Lab"; "Algorithms Lab"] "Algorithms Lab"
             [SlotC; LabC; SemesterC; ProfessorC; DifficultyC] SemesterC).
    + vm_compute. reflexivity.
    + vm_compute. reflexivity.
    + decide_by_compute.
    + vm_compute. reflexivity.
    + decide_by_compute.
Defined.

(** C2 as stated fails: "History" and "Algorithms Lab" are neighbours,
    semester-uniqueness and professor-uniqueness are in the list of
    "History", and both raise [KeyError] on the pair, the Lab variable
    having no semester and no professor. *)
Lemma semester_lookup_fails_on_lab :
  Exams_init scenario = Ok (built scenario) ∧
  neighbors (built scenario) !! "History"
  = Some ["Algorithms Theory"; "Algorithms Lab"] ∧
  var_to_cons (built scenario) !! "History" = Some [SlotC; SemesterC; ProfessorC] ∧
  call (built scenario) SemesterC "History" (0, 0) "Algorithms Lab" (0, 1)
  = Raise (KeyError "Algorithms Lab") ∧
  call (built scenario) ProfessorC "History" (0, 0) "Algorithms Lab" (0, 1)
  = Raise (KeyError "Algorithms Lab").
Proof. repeat split; vm_compute; reflexivity. Qed.

(** ** Symmetry of the predicates *)

(** C8. On a constructed instance, each of the five predicates gives the
    same boolean on [(A, a, B, b)] and on [(B, b, A, a)], provided, for
    semester-uniqueness and professor-uniqueness, that both variables have
    the attribute the predicate looks up. *)
Theorem predicates_symmetric data e c A a B b :
  Exams_init data = Ok e →
  (c = SemesterC → is_Some (semesters e !! A) ∧ is_Some (semesters e !! B)) →
  (c = ProfessorC → is_Some (professors e !! A) ∧ is_Some (professors e !! B)) →
  ∃ r : bool, call e c A a B b = Ok r ∧ call e c B b A a = Ok r.
Proof.
  intros He%Exams_init_constructed Hsem Hprof. destruct c; simpl.
  - unfold slot_constraint. eexists. split; [done|].
    do 2 f_equal. apply bool_decide_ext. naive_solver.
  - destruct (decide (laboratories e !! A = Some B)) as [HAB|HAB].
    { rewrite (lab_constraint_lab_first e A B a b HAB).
      rewrite (lab_constraint_theory_first e A B a b He HAB). by eexists. }
    destruct (decide (laboratories e !! B = Some A)) as [HBA|HBA].
    { rewrite (lab_constraint_lab_first e B A b a HBA).
      rewrite (lab_constraint_theory_first e B A b a He HBA). by eexists. }
    rewrite !lab_constraint_unrelated by done. by eexists.
  - destruct (Hsem eq_refl) as [[sA HsA] [sB HsB]].
    unfold semester_constraint, getitem. rewrite HsA, HsB. simpl.
    eexists. split; [done|]. by rewrite (Z.eqb_sym sB), (Z.eqb_sym b.1).
  - destruct (Hprof eq_refl) as [[pA HpA] [pB HpB]].
    unfold professor_constraint, getitem. rewrite HpA, HpB. simpl.
    eexists. split; [done|]. rewrite (Z.eqb_sym b.1).
    do 3 f_equal. apply bool_decide_ext. naive_solver.
  - unfold difficulty_constraint. eexists. split; [done|].
    do 2 f_equal. lia.
Qed.

Lemma predicates_symmetric_witness :
  ∃ r : bool,
    call (built scenario) SemesterC "History" (4, 0) "Algorithms Theory" (4, 1) = Ok r ∧
    call (built scenario) SemesterC "Algorithms Theory" (4, 1) "History" (4, 0) = Ok r.
Proof.
  apply (predicates_symmetric scenario (built scenario)).
  - vm_compute. reflexivity.
  - intros _. split; eexists; vm_compute; reflexivity.
  - intros H. discriminate H.
Defined.

(** ** Consequences of collision-free names *)

Lemma well_named_derived data r r' :
  well_named data → r ∈ data → r' ∈ data → Lab r' = true →
  Subject r ≠ theory_of (Subject r') ∧ Subject r ≠ lab_of (Subject r').
Proof.
  intros [_ H] Hr Hr'. rewrite Forall_forall in H.
  specialize (H r Hr). rewrite Forall_forall in H. by apply H.
Qed.

Lemma NoDup_fmap_inj_on {A B} (f : A → B) (l : list A) x y :
  NoDup (f <$> l) → x ∈ l → y ∈ l → f x = f y → x = y.
Proof.
  induction l as [|a l IH]; simpl; [by intros _ ?%elem_of_nil|].
  intros [Hnin Hnd]%NoDup_cons [->|Hx]%elem_of_cons [->|Hy]%elem_of_cons Heq; auto.
  - destruct Hnin. rewrite Heq. by apply list_elem_of_fmap_2.
  - destruct Hnin. rewrite <- Heq. by apply list_elem_of_fmap_2.
Qed.

Lemma well_named_subject_inj data r r' :
  well_named data → r ∈ data → r' ∈ data → Subject r = Subject r' → r = r'.
Proof. intros [Hnd _]. by apply NoDup_fmap_inj_on. Qed.

Lemma well_named_key_inj data r r' :
  well_named data → r ∈ data → r' ∈ data → key_of r = key_of r' → r = r'.
Proof.
  intros Hwn Hr Hr' Hk. apply (well_named_subject_inj data); try done.
  unfold key_of in Hk. destruct (Lab r) eqn:Hl, (Lab r') eqn:Hl'.
  - by apply theory_of_inj.
  - symmetry in Hk. by destruct (well_named_derived data r' r Hwn Hr' Hr Hl).
  - by destruct (well_named_derived data r r' Hwn Hr Hr' Hl').
  - done.
Qed.

(** The keys of an attribute dict once the rows [done] have been handled
    and the rows [todo] are still to come are pairwise distinct. *)
Lemma keys_NoDup data done todo :
  well_named data → data = done ++ todo →
  NoDup ((key_of <$> done) ++ (Subject <$> todo)).
Proof.
  intros Hwn ->. pose proof (proj1 Hwn) as Hnd. rewrite fmap_app in Hnd.
  apply NoDup_app in Hnd as (Hnd1 & Hdisj & Hnd2).
  apply NoDup_app. split_and!; [|  |done].
  - apply NoDup_fmap_2_strong; [|by eapply NoDup_fmap_1].
    intros x y Hx Hy. apply (well_named_key_inj _ _ _ Hwn); set_solver.
  - intros k (r & -> & Hr)%list_elem_of_fmap (r' & Hk & Hr')%list_elem_of_fmap.
    unfold key_of in Hk. destruct (Lab r) eqn:Hl.
    + symmetry in Hk.
      destruct (well_named_derived _ r' r Hwn); [set_solver..|done|done].
    + apply (Hdisj (Subject r)); [by apply list_elem_of_fmap_2|].
      rewrite Hk. by apply list_elem_of_fmap_2.
Qed.

Lemma attr_map_keys {V} (f : Row → V) done todo :
  (((λ r, (key_of r, f r)) <$> done) ++ ((λ r, (Subject r, f r)) <$> todo)).*1
  = (key_of <$> done) ++ (Subject <$> todo).
Proof. rewrite fmap_app, <- !list_fmap_compose. done. Qed.

Lemma attr_map_plain {V} (f : Row → V) done r todo :
  Lab r = false → attr_map f done (r :: todo) = attr_map f (done ++ [r]) todo.
Proof.
  intros Hl. unfold attr_map. f_equal.
  rewrite fmap_app, <- app_assoc. simpl. unfold key_of. by rewrite Hl.
Qed.

Lemma attr_map_rekey {V} (f : Row → V) done r todo :
  NoDup ((key_of <$> done) ++ (Subject <$> r :: todo)) →
  NoDup ((key_of <$> done ++ [r]) ++ (Subject <$> todo)) →
  Lab r = true →
  attr_map f done (r :: todo) !! Subject r = Some (f r) ∧
  <[theory_of (Subject r) := f r]> (delete (Subject r) (attr_map f done (r :: todo)))
  = attr_map f (done ++ [r]) todo.
Proof.
  intros Hnd Hnd' Hl. unfold attr_map.
  set (D := (λ r, (key_of r, f r)) <$> done).
  set (T := (λ r, (Subject r, f r)) <$> todo).
  assert (list_to_map (D ++ ((λ r, (Subject r, f r)) <$> r :: todo))
          = <[Subject r := f r]> (list_to_map (D ++ T) : gmap string V)) as ->.
  { rewrite <- list_to_map_cons. apply list_to_map_proper.
    - subst D. by rewrite attr_map_keys.
    - rewrite fmap_cons. fold T. by rewrite <- Permutation_middle. }
  assert ((list_to_map (D ++ T) : gmap string V) !! Subject r = None) as Hnone.
  { apply not_elem_of_list_to_map_1. subst D T. rewrite attr_map_keys.
    rewrite fmap_cons in Hnd. apply NoDup_app in Hnd as (_ & Hdisj & Hnd).
    apply NoDup_cons in Hnd as [Hnin _].
    rewrite elem_of_app. intros [Hin|Hin]; [|done].
    apply (Hdisj _ Hin). left. }
  split; [by rewrite lookup_insert_eq|].
  rewrite delete_insert_eq, delete_id by done.
  rewrite <- list_to_map_cons. apply list_to_map_proper.
  - simpl. apply NoDup_cons. split.
    + subst D T. rewrite attr_map_keys.
      rewrite fmap_app in Hnd'. simpl in Hnd'. unfold key_of at 2 in Hnd'.
      rewrite Hl in Hnd'. rewrite <- app_assoc in Hnd'. simpl in Hnd'.
      apply NoDup_app in Hnd' as (_ & Hdisj & Hnd').
      apply NoDup_cons in Hnd' as [Hnin _].
      rewrite elem_of_app. intros [Hin|Hin]; [|done].
      apply (Hdisj _ Hin). left.
    + subst D T. rewrite attr_map_keys.
      rewrite fmap_cons in Hnd. apply NoDup_app in Hnd as (? & Hdisj & Hnd).
      apply NoDup_cons in Hnd as [_ ?].
      apply NoDup_app. split_and!; [done| |done].
      intros k Hk Hk'. apply (Hdisj k Hk). by right.
  - rewrite fmap_app, <- app_assoc. simpl. unfold key_of at 2. rewrite Hl.
    fold D T. by rewrite <- Permutation_middle.
Qed.

Lemma check_lab_lookup data r :
  well_named data → r ∈ data →
  dict_zip (Subject <$> data) (Lab <$> data) !! Subject r = Some (Lab r).
Proof.
  intros [Hnd _] Hr. rewrite dict_zip_list_to_map by done.
  apply elem_of_list_to_map_1.
  - by rewrite <- list_fmap_compose.
  - by apply (list_elem_of_fmap_2 (λ r, (Subject r, Lab r))).
Qed.

Lemma split_subject_step data done r todo st :
  well_named data → data = done ++ r :: todo →
  split_inv done (r :: todo) st →
  ∃ st', split_subject (dict_zip (Subject <$> data) (Lab <$> data)) st (Subject r)
         = Ok st' ∧ split_inv (done ++ [r]) todo st'.
Proof.
  intros Hwn Hdata [Hv Hl Hs Hp Hd]. unfold split_subject, getitem.
  rewrite (check_lab_lookup data r Hwn) by (rewrite Hdata; set_solver).
  simpl. destruct (Lab r) eqn:Hlab.
  - pose proof (keys_NoDup data done (r :: todo) Hwn Hdata) as Hnd.
    assert (NoDup ((key_of <$> done ++ [r]) ++ (Subject <$> todo))) as Hnd'.
    { apply (keys_NoDup data); [done|]. by rewrite <- app_assoc. }
    destruct (attr_map_rekey Semester done r todo Hnd Hnd' Hlab) as [Hs1 Hs2].
    destruct (attr_map_rekey Professor done r todo Hnd Hnd' Hlab) as [Hp1 Hp2].
    destruct (attr_map_rekey Difficult done r todo Hnd Hnd' Hlab) as [Hd1 Hd2].
    unfold pop. rewrite Hs, Hp, Hd, Hs1, Hp1, Hd1. simpl.
    eexists. split; [done|]. split; simpl; try done.
    + rewrite Hv, bind_app. simpl. unfold emit at 3. by rewrite Hlab, app_nil_r.
    + intros l t. rewrite lookup_insert_Some, Hl. split.
      * intros [[<- <-]|[_ (r' & Hr' & ?)]].
        -- exists r. split; [set_solver|done].
        -- exists r'. split; [set_solver|done].
      * intros (r' & [Hr'| ->%list_elem_of_singleton]%elem_of_app & Hlab' & -> & ->).
        -- destruct (decide (lab_of (Subject r) = lab_of (Subject r'))) as [Heq|Hne].
           ++ left. apply lab_of_inj in Heq. by rewrite Heq.
           ++ right. split; [done|]. by exists r'.
        -- by left.
  - eexists. split; [done|]. split; simpl.
    + rewrite Hv, bind_app. simpl. unfold emit at 3. by rewrite Hlab, app_nil_r.
    + intros l t. rewrite Hl. split.
      * intros (r' & Hr' & ?). exists r'. split; [set_solver|done].
      * intros (r' & [Hr'| ->%list_elem_of_singleton]%elem_of_app & Hlab' & ?);
          [by exists r'|congruence].
    + by rewrite Hs, attr_map_plain.
    + by rewrite Hp, attr_map_plain.
    + by rewrite Hd, attr_map_plain.
Qed.

Lemma split_subjects_well_named data :
  well_named data → ∃ st, split_subjects data = Ok st ∧ split_inv data [] st.
Proof.
  intros Hwn. unfold split_subjects. rewrite for_each_fmap.
  destruct (for_each_total
    (λ done st, ∃ todo, data = done ++ todo ∧ split_inv done todo st)
    (λ s r, split_subject (dict_zip (Subject <$> data) (Lab <$> data)) s (Subject r))
    data []
    {| s_variables := []; s_laboratories := ∅;
       s_semesters := dict_zip (Subject <$> data) (Semester <$> data);
       s_professors := dict_zip (Subject <$> data) (Professor <$> data);
       s_difficulties := dict_zip (Subject <$> data) (Difficult <$> data) |})
    as (st & Hrun & todo & Htodo & Hinv).
  - intros done r suf s Heq (todo & Hdata & Hinv). simpl in Heq.
    assert (todo = r :: suf) as ->.
    { rewrite Heq in Hdata. by apply app_inv_head in Hdata. }
    destruct (split_subject_step data done r suf s Hwn Heq Hinv) as (s' & Hs' & Hinv').
    exists s'. split; [done|]. exists suf. split; [|done].
    by rewrite <- app_assoc.
  - exists data. split; [done|]. destruct Hwn as [Hnd _].
    split; simpl; try done.
    + intros l t. rewrite lookup_empty. split; [done|].
      by intros (r & ?%elem_of_nil & _).
    + by apply dict_zip_list_to_map.
    + by apply dict_zip_list_to_map.
    + by apply dict_zip_list_to_map.
  - exists st. split; [done|]. simpl in Htodo.
    assert (todo = []) as ->; [|done].
    apply (f_equal length) in Htodo. rewrite length_app in Htodo.
    destruct todo; [done|]. simpl in Htodo. lia.
Qed.

Lemma attr_map_final {V} (f : Row → V) data k v :
  well_named data →
  attr_map f data [] !! k = Some v ↔ ∃ r, r ∈ data ∧ k = key_of r ∧ v = f r.
Proof.
  intros Hwn. unfold attr_map. rewrite <- elem_of_list_to_map.
  - simpl. rewrite app_nil_r, list_elem_of_fmap. naive_solver.
  - rewrite attr_map_keys. apply (keys_NoDup data); [done|]. by rewrite app_nil_r.
Qed.

Lemma elem_of_emit k r :
  k ∈ emit r ↔ k = key_of r ∨ (Lab r = true ∧ k = lab_of (Subject r)).
Proof.
  unfold emit, key_of. destruct (Lab r);
    rewrite ?elem_of_cons, ?elem_of_nil; naive_solver.
Qed.

Lemma key_of_not_lab data e r :
  well_named data → encodes data e → r ∈ data → laboratories e !! key_of r = None.
Proof.
  intros Hwn He Hr. destruct (laboratories e !! key_of r) as [t|] eqn:Ht; [|done].
  apply (e_laboratories data e He) in Ht as (r' & Hr' & Hlab' & Hk & _).
  unfold key_of in Hk. destruct (Lab r).
  - by apply theory_ne_lab in Hk.
  - by destruct (well_named_derived data r r' Hwn Hr Hr' Hlab').
Qed.

(** The variables that are not Lab variables are the attribute-carrying
    variables of the rows. *)
Lemma nonlab_variable data e k :
  well_named data → encodes data e →
  k ∈ variables e ∧ laboratories e !! k = None ↔ ∃ r, r ∈ data ∧ k = key_of r.
Proof.
  intros Hwn He. rewrite (e_variables data e He), list_elem_of_bind. split.
  - intros [(r & [->|[Hlab ->]]%elem_of_emit & Hr) Hnone]; [by exists r|].
    assert (laboratories e !! lab_of (Subject r) = Some (theory_of (Subject r))) as Hl.
    { apply (e_laboratories data e He). by exists r. }
    congruence.
  - intros (r & Hr & ->). split.
    + exists r. split; [|done]. apply elem_of_emit. by left.
    + by apply (key_of_not_lab data).
Qed.

Lemma well_named_encodes data :
  well_named data → ∃ e, Exams_init data = Ok e ∧ encodes data e.
Proof.
  intros Hwn.
  destruct (split_subjects_well_named data Hwn) as (st & Hst & [Hv Hl Hs Hp Hd]).
  assert (∀ vtc, encodes data
    {| semesters := s_semesters st; professors := s_professors st;
       difficulties := s_difficulties st; variables := s_variables st;
       laboratories := s_laboratories st;
       domains := dict_comp (λ _, full_domain) (s_variables st);
       neighbors := dict_comp (others (s_variables st)) (s_variables st);
       var_to_cons := vtc |}) as Henc.
  { intros vtc. split; simpl; try done.
    - intros k v. rewrite Hs. by apply attr_map_final.
    - intros k v. rewrite Hp. by apply attr_map_final.
    - intros k v. rewrite Hd. by apply attr_map_final. }
  destruct (assemble_total (s_laboratories st) (s_difficulties st) (s_variables st))
    as [vtc Hvtc].
  { intros v Hv' Hnone.
    destruct (proj1 (nonlab_variable data _ v Hwn (Henc ∅))) as (r & Hr & ->);
      [done|].
    exists (Difficult r). apply (e_difficulties data _ (Henc ∅)). by exists r. }
  eexists. split; [|apply (Henc vtc)].
  apply Exams_init_Ok. by exists st, vtc.
Qed.

Lemma emit_NoDup data :
  well_named data → NoDup (data ≫= emit).
Proof.
  intros Hwn. apply NoDup_bind.
  - intros r1 r2 k Hr1 Hr2 [Hk1|[Hl1 Hk1]]%elem_of_emit [Hk2|[Hl2 Hk2]]%elem_of_emit.
    + apply (well_named_key_inj data); congruence.
    + rewrite Hk1 in Hk2. unfold key_of in Hk2. destruct (Lab r1).
      * by apply theory_ne_lab in Hk2.
      * by destruct (well_named_derived data r1 r2 Hwn Hr1 Hr2 Hl2).
    + rewrite Hk2 in Hk1. unfold key_of in Hk1. destruct (Lab r2).
      * by apply theory_ne_lab in Hk1.
      * by destruct (well_named_derived data r2 r1 Hwn Hr2 Hr1 Hl1).
    + apply (well_named_subject_inj data); try done.
      apply lab_of_inj. congruence.
  - intros r _. unfold emit. destruct (Lab r).
    + apply NoDup_cons. split; [|apply NoDup_singleton].
      rewrite list_elem_of_singleton. apply theory_ne_lab.
    + apply NoDup_singleton.
  - destruct Hwn as [Hnd _]. by eapply NoDup_fmap_1.
Qed.

Lemma not_attr_key data r k :
  well_named data → r ∈ data → Lab r = true →
  k = Subject r ∨ k = lab_of (Subject r) →
  ¬ ∃ r', r' ∈ data ∧ k = key_of r'.
Proof.
  intros Hwn Hr Hlab Hk (r' & Hr' & Hk'). unfold key_of in Hk'.
  destruct (Lab r') eqn:Hlab', Hk as [->| ->].
  - by destruct (well_named_derived data r r' Hwn Hr Hr' Hlab').
  - symmetry in Hk'. by apply theory_ne_lab in Hk'.
  - assert (r = r') by (by apply (well_named_subject_inj data)). congruence.
  - symmetry in Hk'. by destruct (well_named_derived data r' r Hwn Hr' Hr Hlab).
Qed.

Lemma lookup_None_iff {V} (m : gmap string V) k (P : V → Prop) :
  (∀ v, m !! k = Some v ↔ P v) → (¬ ∃ v, P v) → m !! k = None.
Proof.
  intros Hm HP. destruct (m !! k) as [v|] eqn:Hv; [|done].
  destruct HP. exists v. by apply Hm.
Qed.

Lemma encodes_no_attrs data e r k :
  well_named data → encodes data e → r ∈ data → Lab r = true →
  k = Subject r ∨ k = lab_of (Subject r) →
  semesters e !! k = None ∧ professors e !! k = None ∧ difficulties e !! k = None.
Proof.
  intros Hwn He Hr Hlab Hk.
  pose proof (not_attr_key data r k Hwn Hr Hlab Hk) as Hno.
  split_and!.
  - apply (lookup_None_iff _ _ _ (e_semesters data e He k)). naive_solver.
  - apply (lookup_None_iff _ _ _ (e_professors data e He k)). naive_solver.
  - apply (lookup_None_iff _ _ _ (e_difficulties data e He k)). naive_solver.
Qed.

Lemma encodes_dom data e k :
  well_named data → encodes data e →
  (k ∈ dom (semesters e) ↔ k ∈ variables e ∧ laboratories e !! k = None) ∧
  (k ∈ dom (professors e) ↔ k ∈ variables e ∧ laboratories e !! k = None) ∧
  (k ∈ dom (difficulties e) ↔ k ∈ variables e ∧ laboratories e !! k = None).
Proof.
  intros Hwn He. rewrite !elem_of_dom, (nonlab_variable data e k Hwn He).
  unfold is_Some. split_and!.
  - setoid_rewrite (e_semesters data e He k). naive_solver.
  - setoid_rewrite (e_professors data e He k). naive_solver.
  - setoid_rewrite (e_difficulties data e He k). naive_solver.
Qed.

(** ** Uniqueness of the variable names *)

(** C3, as the code has it. The constructor has no check for colliding
    names. For a catalogue whose subject names are pairwise distinct and
    are not the Theory or Lab name derived from a subject with a lab,
    construction succeeds and the variable names are pairwise distinct. *)
Theorem unique_variable_names data :
  well_named data → ∃ e, Exams_init data = Ok e ∧ NoDup (variables e).
Proof.
  intros Hwn. destruct (well_named_encodes data Hwn) as (e & He & Henc).
  exists e. split; [done|].
  rewrite (e_variables data e Henc). by apply emit_NoDup.
Qed.

Lemma unique_variable_names_witness :
  ∃ e, Exams_init scenario = Ok e ∧ NoDup (variables e).
Proof. apply unique_variable_names. decide_by_compute. Defined.

(** C3 as stated fails: two rows for "History" are accepted and give the
    variable "History" twice; two rows for "Algorithms", a subject with a
    lab, end in a [KeyError] of the second [pop], not in a duplicate-subject
    error. *)
Lemma duplicate_subjects_not_rejected :
  Exams_init [history; history] = Ok (built [history; history]) ∧
  variables (built [history; history]) = ["History"; "History"] ∧
  ¬ NoDup (variables (built [history; history])) ∧
  Exams_init [algorithms; algorithms] = Raise (KeyError "Algorithms").
Proof.
  split_and!; try (vm_compute; reflexivity).
  intros Hnd. apply (bool_decide_pack _) in Hnd. vm_compute in Hnd. exact Hnd.
Qed.

(** ** The output of the builder *)

(** C6, as the code has it. For a catalogue whose subject names are
    pairwise distinct and are not the Theory or Lab name derived from a
    subject with a lab, construction succeeds; the variables are, row by
    row in input order, the subject itself for a row without a lab and
    "<name> Theory" then "<name> Lab" for a row with a lab;
    [laboratories] maps exactly each such Lab name to its Theory name; the
    semester, professor and difficulty of a row are keyed by the subject
    for a row without a lab and by the Theory name for a row with a lab,
    whose subject name and Lab name are keys of no attribute dict; every
    variable has the domain of the 63 pairs (day, slot) with day in
    [0,21) and slot in [0,3). *)
Theorem builder_output data :
  well_named data →
  ∃ e, Exams_init data = Ok e ∧
    variables e = data ≫= emit ∧
    (∀ l t, laboratories e !! l = Some t ↔
       ∃ r, r ∈ data ∧ Lab r = true ∧
            l = lab_of (Subject r) ∧ t = theory_of (Subject r)) ∧
    (∀ r, r ∈ data →
       semesters e !! key_of r = Some (Semester r) ∧
       professors e !! key_of r = Some (Professor r) ∧
       difficulties e !! key_of r = Some (Difficult r) ∧
       (Lab r = true → ∀ k, k = Subject r ∨ k = lab_of (Subject r) →
          semesters e !! k = None ∧ professors e !! k = None ∧
          difficulties e !! k = None)) ∧
    (∀ v, v ∈ variables e → domains e !! v = Some full_domain) ∧
    length full_domain = 63%nat ∧
    (∀ a : Value, a ∈ full_domain ↔ (0 ≤ a.1 < 21) ∧ (0 ≤ a.2 < 3)).
Proof.
  intros Hwn. destruct (well_named_encodes data Hwn) as (e & He & Henc).
  exists e. split_and!; try done.
  - apply (e_variables data e Henc).
  - apply (e_laboratories data e Henc).
  - intros r Hr. split_and!.
    + apply (e_semesters data e Henc). by exists r.
    + apply (e_professors data e Henc). by exists r.
    + apply (e_difficulties data e Henc). by exists r.
    + intros Hlab k Hk. by apply (encodes_no_attrs data e r).
  - intros v Hv. rewrite (c_domains e (Exams_init_constructed data e He)).
    by rewrite dict_comp_lookup, bool_decide_eq_true_2.
  - apply elem_of_full_domain.
Qed.

Lemma builder_output_witness :
  ∃ e, Exams_init scenario = Ok e ∧
    variables e = ["Algorithms Theory"; "Algorithms Lab"; "History"] ∧
    laboratories e !! "Algorithms Lab" = Some "Algorithms Theory" ∧
    semesters e !! "Algorithms Theory" = Some 3 ∧
    semesters e !! "Algorithms" = None ∧
    semesters e !! "Algorithms Lab" = None ∧
    domains e !! "Algorithms Lab" = Some full_domain.
Proof.
  destruct (builder_output scenario) as (e & He & Hv & Hl & Hattr & Hdom & _).
  { decide_by_compute. }
  assert (algorithms ∈ scenario) as Hin by (unfold scenario; left).
  exists e. destruct (Hattr algorithms Hin) as (Hs & _ & _ & Hnone).
  split; [exact He|]. split; [exact Hv|]. split.
  { apply Hl. exists algorithms. repeat split. exact Hin. }
  split; [exact Hs|]. split.
  { apply (Hnone eq_refl "Algorithms"). left. reflexivity. }
  split.
  { apply (Hnone eq_refl "Algorithms Lab"). right. reflexivity. }
  apply Hdom. rewrite Hv. decide_by_compute.
Defined.

(** C6 as stated fails. Two rows for "Algorithms": the second [pop]
    raises. Rows "Algorithms" and "Algorithms Theory", both with a lab:
    the loop ends with the semester of "Algorithms" keyed by "Algorithms
    Theory Theory" and no semester for the variable "Algorithms Theory",
    and the constructor then raises on the difficulty of that variable. *)
Lemma builder_fails_on_collisions :
  Exams_init [algorithms; algorithms] = Raise (KeyError "Algorithms") ∧
  (s_variables <$> to_option (split_subjects [algorithms; algorithms_theory])
   = Some ["Algorithms Theory"; "Algorithms Lab";
           "Algorithms Theory Theory"; "Algorithms Theory Lab"]) ∧
  ((λ st, (s_semesters st !! "Algorithms Theory",
           s_semesters st !! "Algorithms Theory Theory"))
     <$> to_option (split_subjects [algorithms; algorithms_theory])
   = Some (None, Some 3)) ∧
  Exams_init [algorithms; algorithms_theory] = Raise (KeyError "Algorithms Theory").
Proof. split_and!; vm_compute; reflexivity. Qed.

(** ** The keys of the attribute dicts *)

(** C10, as the code has it. For a catalogue whose subject names are
    pairwise distinct and are not the Theory or Lab name derived from a
    subject with a lab, the keys of [semesters], of [professors] and of
    [difficulties] of the constructed instance are exactly the variables
    that are not Lab variables; for a row with a lab neither its Lab
    variable nor its subject name is a key of any of the three. *)
Theorem attribute_keys data e :
  well_named data → Exams_init data = Ok e →
  (∀ k, k ∈ dom (semesters e) ↔ k ∈ variables e ∧ laboratories e !! k = None) ∧
  (∀ k, k ∈ dom (professors e) ↔ k ∈ variables e ∧ laboratories e !! k = None) ∧
  (∀ k, k ∈ dom (difficulties e) ↔ k ∈ variables e ∧ laboratories e !! k = None) ∧
  (∀ r k, r ∈ data → Lab r = true → k = Subject r ∨ k = lab_of (Subject r) →
     semesters e !! k = None ∧ professors e !! k = None ∧
     difficulties e !! k = None).
Proof.
  intros Hwn He. destruct (well_named_encodes data Hwn) as (e' & He' & Henc).
  assert (e' = e) as -> by congruence.
  split_and!; try (intros k; by apply (encodes_dom data e k Hwn Henc)).
  intros r k. by apply encodes_no_attrs.
Qed.

Lemma attribute_keys_witness :
  ("Algorithms Theory" ∈ dom (semesters (built scenario)) ↔
     "Algorithms Theory" ∈ variables (built scenario) ∧
     laboratories (built scenario) !! "Algorithms Theory" = None) ∧
  semesters (built scenario) !! "Algorithms Lab" = None ∧
  professors (built scenario) !! "Algorithms Lab" = None ∧
  difficulties (built scenario) !! "Algorithms Lab" = None.
Proof.
  destruct (attribute_keys scenario (built scenario)) as (Hs & _ & _ & Hnone).
  - decide_by_compute.
  - vm_compute. reflexivity.
  - split; [apply Hs|].
    apply (Hnone algorithms); [unfold scenario; left|reflexivity|right; reflexivity].
Defined.

(** C10 as stated fails, also with pairwise distinct subjects and pairwise
    distinct variables: with the rows "Algorithms Theory" and then
    "Algorithms", both with a lab, the subject name "Algorithms Theory" of
    a row with a lab is a key of the three dicts. With a row "Algorithms
    Lab" without a lab before the row "Algorithms", the Lab variable
    "Algorithms Lab" is a key of the three dicts. *)
Lemma attribute_keys_collisions :
  (Exams_init [algorithms_theory; algorithms]
   = Ok (built [algorithms_theory; algorithms]) ∧
   variables (built [algorithms_theory; algorithms])
   = ["Algorithms Theory Theory"; "Algorithms Theory Lab";
      "Algorithms Theory"; "Algorithms Lab"] ∧
   Lab algorithms_theory = true ∧
   semesters (built [algorithms_theory; algorithms]) !! Subject algorithms_theory
   = Some 3 ∧
   professors (built [algorithms_theory; algorithms]) !! Subject algorithms_theory
   = Some "A" ∧
   difficulties (built [algorithms_theory; algorithms]) !! Subject algorithms_theory
   = Some true) ∧
  (Exams_init [algorithms_lab; algorithms] = Ok (built [algorithms_lab; algorithms]) ∧
   laboratories (built [algorithms_lab; algorithms]) !! "Algorithms Lab"
   = Some "Algorithms Theory" ∧
   semesters (built [algorithms_lab; algorithms]) !! "Algorithms Lab" = Some 7 ∧
   professors (built [algorithms_lab; algorithms]) !! "Algorithms Lab" = Some "D" ∧
   difficulties (built [algorithms_lab; algorithms]) !! "Algorithms Lab"
   = Some false).
Proof. split_and!; vm_compute; reflexivity. Qed.

(** ** The harness *)

Lemma for__Ok {A} (l : list A) (body : A → Print ()) :
  (∀ x, x ∈ l → (body x).2 = Ok ()) → (for_ l body).2 = Ok ().
Proof.
  induction l as [|x l IH]; intros Hbody; simpl; [done|].
  unfold mbind, Print_bind. rewrite Hbody by left. simpl.
  apply IH. intros y Hy. apply Hbody. by right.
Qed.

Lemma bind_print_Ok {A} (m : Print A) (f : A → Print ()) :
  (∃ a, m.2 = Ok a) → (∀ a, (f a).2 = Ok ()) → (m ≫= f).2 = Ok ().
Proof.
  intros [a Ha] Hf. unfold mbind, Print_bind. rewrite Ha. simpl. apply Hf.
Qed.

(** Rendering a dict never raises. *)
Lemma display_dict_Ok entries : (display (PyDict entries)).2 = Ok ().
Proof.
  unfold display. apply for__Ok. intros k _.
  apply bind_print_Ok; [by exists ()|]. intros _.
  apply bind_print_Ok; [|done]. exists (). apply for__Ok. intros i _.
  apply bind_print_Ok; [by exists ()|]. intros _.
  apply bind_print_Ok; [|done]. exists (). apply for__Ok. intros j _.
  apply bind_print_Ok; [by eexists|]. intros es.
  apply for__Ok. intros entry _. by case_bool_decide.
Qed.

(** C9, as the code has it. For a backtracking configuration, whatever
    result the engine hands back, the harness prints the header and the two
    counters, then the calendar of the assignment read off the instance by
    [infer_assignment], without raising, and goes on with the remaining
    configurations: the printed text does not depend on the result. *)
Theorem harness_backtracking {St} (csp : Engine St) name sel inf ms
    exams res checks nodes exams' :
  name ≠ "MIN_CONFLICTS:" →
  backtracking_search csp exams sel inf = ((res, checks, nodes), exams') →
  (display (PyDict (infer_assignment csp exams'))).2 = Ok () ∧
  run csp ((name, sel, inf) :: ms) exams
  = (report name checks nodes
       ++ (display (PyDict (infer_assignment csp exams'))).1
       ++ (run csp ms exams').1,
     (run csp ms exams').2).
Proof.
  intros Hname Hsearch. split; [apply display_dict_Ok|].
  cbn [run]. unfold run_method.
  rewrite (bool_decide_eq_false_2 (name = "MIN_CONFLICTS:")) by done.
  rewrite (bool_decide_eq_true_2 (name ≠ "MIN_CONFLICTS:")) by done.
  rewrite Hsearch. cbn [fst snd]. rewrite display_dict_Ok.
  by rewrite <- app_assoc.
Qed.

Lemma harness_backtracking_witness :
  run exhausted [("FC + MRV:", Some mrv, Some forward_checking)] ()
  = (report "FC + MRV:" 120 40
       ++ (display (PyDict [("History", (0, 0))])).1 ++ [],
     Ok ()).
Proof.
  apply (harness_backtracking exhausted "FC + MRV:" (Some mrv)
           (Some forward_checking) [] () PyNone 120 40 ()).
  - discriminate.
  - reflexivity.
Defined.

(** C9 as stated fails: when the search of the first configuration hands
    back [None], the harness prints what it prints for a reported solution
    with the same counters, and the calendar shows the one value left in
    the instance, "History" on Monday 9-11, though the scenario has three
    variables. *)
Lemma no_solution_not_reported :
  fst (backtracking_search exhausted () (Some mrv) (Some forward_checking))
  = (PyNone, 120, 40) ∧
  run_method exhausted ("FC + MRV:", Some mrv, Some forward_checking) ()
  = run_method solved ("FC + MRV:", Some mrv, Some forward_checking) () ∧
  take 8 (run_method exhausted ("FC + MRV:", Some mrv, Some forward_checking) ()).1
  = [Line "--------------------"; Line "FC + MRV:"; ExecutionTime;
     Count "Number of visited nodes:" 40;
     Count "Number of consistency checks:" 120;
     Line "First Week"; Line "Monday"; Cell "9-11: History"].
Proof. split_and!; vm_compute; reflexivity. Qed.

(** With the local search handing back [None], the renderer is given
    [None] itself and raises on [items]. *)
Example min_conflicts_none_raises :
  run_method exhausted ("MIN_CONFLICTS:", None, None) ()
  = (report "MIN_CONFLICTS:" 120 40 ++ [Line "First Week"; Line "Monday"],
     Raise (AttributeError "items")).
Proof. vm_compute. reflexivity. Qed.

(** * Further properties of the encoding *)

(** ** The neighbour graph and the keys of the instance *)

Lemma dict_comp_dom {V} (f : string → V) (ks : list string) :
  dom (dict_comp f ks) = list_to_set ks.
Proof.
  apply set_eq. intros k.
  rewrite elem_of_dom, dict_comp_lookup, elem_of_list_to_set.
  case_bool_decide; split; try done; by intros [? ?].
Qed.

Lemma others_notin (vars : list string) (x : string) :
  x ∉ vars → others vars x = vars.
Proof.
  unfold others. induction vars as [|y vars IH]; [done|].
  intros [Hne Hnin]%not_elem_of_cons.
  rewrite filter_cons_True by done. by rewrite IH.
Qed.

Lemma length_others (vars : list string) (x : string) :
  NoDup vars → x ∈ vars → S (length (others vars x)) = length vars.
Proof.
  induction vars as [|y vars IH]; [by intros _ ?%elem_of_nil|].
  intros [Hnin Hnd]%NoDup_cons [<-|Hx]%elem_of_cons; unfold others.
  - rewrite filter_cons_False by (intros ?; done). simpl. f_equal.
    f_equal. by apply others_notin.
  - rewrite filter_cons_True by (intros ->; done). simpl. f_equal.
    by apply IH.
Qed.

(** X1. On a constructed instance, whatever the csv, the neighbours of a
    variable are exactly the variables with another name: the graph is
    complete, no variable is its own neighbour, the relation is symmetric,
    and with pairwise distinct variable names a variable has one neighbour
    less than there are variables. *)
Theorem neighbors_complete data e A :
  Exams_init data = Ok e → A ∈ variables e →
  ∃ ns, neighbors e !! A = Some ns ∧
    (∀ B, B ∈ ns ↔ B ∈ variables e ∧ B ≠ A) ∧
    (A ∉ ns) ∧
    (∀ B, B ∈ ns → ∃ ns', neighbors e !! B = Some ns' ∧ A ∈ ns') ∧
    (NoDup (variables e) → S (length ns) = length (variables e)).
Proof.
  intros He%Exams_init_constructed HA.
  rewrite (c_neighbors e He), dict_comp_lookup, bool_decide_eq_true_2 by done.
  eexists. split; [done|]. unfold others at 1 2 3. split_and!.
  - intros B. by rewrite list_elem_of_filter, (comm and).
  - rewrite list_elem_of_filter. naive_solver.
  - intros B [HBA HB]%list_elem_of_filter.
    rewrite dict_comp_lookup, bool_decide_eq_true_2 by done.
    eexists. split; [done|]. apply list_elem_of_filter. naive_solver.
  - intros Hnd. by apply length_others.
Qed.

Lemma neighbors_complete_witness :
  ∃ ns, neighbors (built scenario) !! "History" = Some ns ∧
    "Algorithms Lab" ∈ ns ∧ ("History" ∉ ns) ∧ length ns = 2%nat.
Proof.
  destruct (neighbors_complete scenario (built scenario) "History")
    as (ns & Hns & Hmem & Hself & _ & Hlen).
  - vm_compute. reflexivity.
  - decide_by_compute.
  - exists ns. split; [exact Hns|]. split.
    { apply Hmem. split; [decide_by_compute|discriminate]. }
    split; [exact Hself|].
    assert (NoDup (variables (built scenario))) as Hnd by decide_by_compute.
    specialize (Hlen Hnd).
    assert (length (variables (built scenario)) = 3%nat) as Hthree
      by (vm_compute; reflexivity).
    rewrite Hthree in Hlen. by injection Hlen.
Defined.

Lemma attach_dom labs diffs vtc var vtc' :
  var ∈ dom vtc → attach labs diffs vtc var = Ok vtc' → dom vtc' = dom vtc.
Proof.
  intros [l Hl]%elem_of_dom. rewrite (attach_spec _ _ _ _ _ Hl).
  destruct (negb (contains labs var) && bool_decide (diffs !! var = None)); [done|].
  intros [= <-]. rewrite dom_insert_L.
  assert (var ∈ dom vtc) by (apply elem_of_dom; eauto). set_solver.
Qed.

Lemma assemble_dom labs diffs vars vtc :
  assemble labs diffs vars = Ok vtc → dom vtc = list_to_set vars.
Proof.
  unfold assemble. intros H.
  apply (for_each_inv (λ _ vtc, dom vtc = list_to_set vars) _ _ []) in H; [done| |].
  - intros pre x suf s s' Heq Hdom Hs'. rewrite <- Hdom.
    apply (attach_dom labs diffs s x); [|done].
    rewrite Hdom, elem_of_list_to_set. rewrite app_nil_l in Heq.
    rewrite Heq. set_solver.
  - apply dict_comp_dom.
Qed.

(** X2. On a constructed instance, whatever the csv, [domains],
    [neighbors] and [var_to_cons] have exactly the variables as keys. *)
Theorem instance_keys data e :
  Exams_init data = Ok e →
  dom (domains e) = list_to_set (variables e) ∧
  dom (neighbors e) = list_to_set (variables e) ∧
  dom (var_to_cons e) = list_to_set (variables e).
Proof.
  intros (st & vtc & Hst & Hvtc & ->)%Exams_init_Ok. simpl. split_and!.
  - apply dict_comp_dom.
  - apply dict_comp_dom.
  - by apply (assemble_dom (s_laboratories st) (s_difficulties st)).
Qed.

Lemma instance_keys_witness :
  dom (domains (built scenario)) = list_to_set (variables (built scenario)) ∧
  dom (neighbors (built scenario)) = list_to_set (variables (built scenario)) ∧
  dom (var_to_cons (built scenario)) = list_to_set (variables (built scenario)).
Proof. apply (instance_keys scenario). vm_compute. reflexivity. Defined.

(** ** The lab relation, for every csv *)

Lemma split_subject_adjacent check_lab st subject st' :
  adjacent_labs (s_variables st) (s_laboratories st) →
  split_subject check_lab st subject = Ok st' →
  adjacent_labs (s_variables st') (s_laboratories st').
Proof.
  intros Hadj. unfold split_subject.
  intros (has_lab & _ & H)%bind_Ok. destruct has_lab.
  - apply bind_Ok in H as ([s sems] & _ & H).
    apply bind_Ok in H as ([p' profs] & _ & H).
    apply bind_Ok in H as ([d diffs] & _ & H).
    injection H as <-. simpl.
    intros l t [[<- <-]|[_ Hlt]]%lookup_insert_Some.
    + by exists (s_variables st), [].
    + destruct (Hadj l t Hlt) as (pre & suf & ->).
      exists pre, (suf ++ [theory_of subject; lab_of subject]).
      by rewrite <- app_assoc.
  - injection H as <-. simpl. intros l t Hlt.
    destruct (Hadj l t Hlt) as (pre & suf & ->).
    exists pre, (suf ++ [subject]). by rewrite <- app_assoc.
Qed.

Lemma split_subjects_adjacent data st :
  split_subjects data = Ok st →
  adjacent_labs (s_variables st) (s_laboratories st).
Proof.
  unfold split_subjects. intros H.
  apply (for_each_inv
           (λ _ st, adjacent_labs (s_variables st) (s_laboratories st)) _ _ [])
    in H; [done| |].
  - intros _ x _ s s' _. apply split_subject_adjacent.
  - simpl. intros l t. by rewrite lookup_empty.
Qed.

(** X4. On a constructed instance, whatever the csv, an entry of
    [laboratories] maps the Lab name of a subject to the Theory name of
    the same subject; the two are variables, the Theory one immediately
    before the Lab one; a Theory variable is not itself a key of
    [laboratories], and it is the value of one key only. *)
Theorem laboratories_relation data e l t :
  Exams_init data = Ok e → laboratories e !! l = Some t →
  (∃ s, l = lab_of s ∧ t = theory_of s) ∧
  (∃ pre suf, variables e = pre ++ t :: l :: suf) ∧
  laboratories e !! t = None ∧
  (∀ l', laboratories e !! l' = Some t → l' = l).
Proof.
  intros He Hlt. pose proof (Exams_init_constructed data e He) as Hc.
  apply Exams_init_Ok in He as (st & vtc & Hst & _ & ->). simpl in *.
  destruct (c_labs _ Hc l t Hlt) as (s & -> & ->). split_and!.
  - by exists s.
  - by apply (split_subjects_adjacent data st Hst).
  - destruct (s_laboratories st !! theory_of s) as [t'|] eqn:Ht; [|done].
    destruct (c_labs _ Hc _ _ Ht) as (s' & Habs & _).
    by apply theory_ne_lab in Habs.
  - intros l' Hl'. destruct (c_labs _ Hc _ _ Hl') as (s' & -> & Heq).
    apply theory_of_inj in Heq. by rewrite Heq.
Qed.

Lemma laboratories_relation_witness :
  (∃ s, "Algorithms Lab" = lab_of s ∧ "Algorithms Theory" = theory_of s) ∧
  (∃ pre suf, variables (built scenario)
              = pre ++ "Algorithms Theory" :: "Algorithms Lab" :: suf) ∧
  laboratories (built scenario) !! "Algorithms Theory" = None ∧
  (∀ l', laboratories (built scenario) !! l' = Some "Algorithms Theory" →
     l' = "Algorithms Lab").
Proof.
  apply (laboratories_relation scenario).
  - vm_compute. reflexivity.
  - vm_compute. reflexivity.
Defined.

(** ** The exact predicate lists *)

Lemma filter_eq_snoc (pre : list string) (x v : string) :
  filter (λ y, y = v) (pre ++ [x])
  = filter (λ y, y = v) pre ++ (if bool_decide (x = v) then [x] else []).
Proof.
  rewrite filter_app. f_equal. case_bool_decide.
  - by rewrite filter_cons_True.
  - by rewrite filter_cons_False.
Qed.

Lemma filter_eq_NoDup (vars : list string) (v : string) :
  NoDup vars → v ∈ vars → filter (λ y, y = v) vars = [v].
Proof.
  induction vars as [|y vars IH]; [by intros _ ?%elem_of_nil|].
  intros [Hnin Hnd]%NoDup_cons [<-|Hv]%elem_of_cons.
  - rewrite filter_cons_True by done. f_equal.
    induction vars as [|z vars IH']; [done|].
    apply not_elem_of_cons in Hnin as [Hne Hnin].
    apply NoDup_cons in Hnd as [_ Hnd].
    rewrite filter_cons_False by (intros ->; done). apply IH'; auto.
    intros _ ?. by destruct Hnin.
  - rewrite filter_cons_False by (intros ->; done). by apply IH.
Qed.

Lemma cons_exact_attach labs diffs vars pre vtc x vtc' :
  x ∈ vars → cons_exact labs diffs vars pre vtc →
  attach labs diffs vtc x = Ok vtc' → cons_exact labs diffs vars (pre ++ [x]) vtc'.
Proof.
  intros Hx Hinv. rewrite (attach_spec _ _ _ _ _ (Hinv x Hx)).
  destruct (negb (contains labs x) && bool_decide (diffs !! x = None)); [done|].
  intros [= <-] v Hv. rewrite filter_eq_snoc, bind_app.
  destruct (decide (x = v)) as [->|Hne].
  - rewrite lookup_insert_eq, bool_decide_eq_true_2 by done.
    simpl. by rewrite app_nil_r.
  - rewrite lookup_insert_ne, bool_decide_eq_false_2 by done.
    simpl. rewrite app_nil_r. by apply Hinv.
Qed.

Lemma assemble_exact labs diffs vars vtc :
  assemble labs diffs vars = Ok vtc → cons_exact labs diffs vars vars vtc.
Proof.
  unfold assemble. intros H.
  apply (for_each_inv (cons_exact labs diffs vars) _ _ []) in H; [done| |].
  - intros pre x suf s s' Heq. apply cons_exact_attach.
    rewrite app_nil_l in Heq. rewrite Heq. set_solver.
  - intros v Hv. by rewrite dict_comp_lookup, bool_decide_eq_true_2.
Qed.

Lemma attached_NoDup labs diffs v : NoDup (SlotC :: attached labs diffs v).
Proof.
  unfold attached.
  destruct (contains labs v), (in_values labs v), (diffs !! v) as [[]|]; simpl;
    by apply (bool_decide_unpack _).
Qed.

(** X5. On a constructed instance, whatever the csv, the predicate list of
    a variable is slot-uniqueness followed by what the loop body appends
    for it (lab-ordering, semester- and professor-uniqueness,
    difficulty-separation, in this order, each where it applies), once for
    every occurrence of its name in the variable list. With pairwise
    distinct variable names no predicate is in a list twice. *)
Theorem predicate_list_exact data e v :
  Exams_init data = Ok e → v ∈ variables e →
  var_to_cons e !! v
  = Some (SlotC :: (filter (λ x, x = v) (variables e)
                    ≫= λ _, attached (laboratories e) (difficulties e) v)) ∧
  (NoDup (variables e) →
     var_to_cons e !! v
     = Some (SlotC :: attached (laboratories e) (difficulties e) v) ∧
     ∀ cs, var_to_cons e !! v = Some cs → NoDup cs).
Proof.
  intros (st & vtc & Hst & Hvtc & ->)%Exams_init_Ok Hv. simpl in *.
  pose proof (assemble_exact _ _ _ _ Hvtc v Hv) as Hcs. split; [done|].
  intros Hnd. rewrite (filter_eq_NoDup _ _ Hnd Hv) in Hcs. simpl in Hcs.
  rewrite app_nil_r in Hcs. split; [done|].
  intros cs Hcs'. rewrite Hcs in Hcs'. injection Hcs' as <-.
  apply attached_NoDup.
Qed.

Lemma predicate_list_exact_witness :
  var_to_cons (built [history; history]) !! "History"
  = Some [SlotC; SemesterC; ProfessorC; SemesterC; ProfessorC] ∧
  var_to_cons (built scenario) !! "Algorithms Lab" = Some [SlotC; LabC].
Proof.
  destruct (predicate_list_exact [history; history] (built [history; history])
              "History") as [Htwice _].
  { vm_compute. reflexivity. }
  { decide_by_compute. }
  destruct (predicate_list_exact scenario (built scenario) "Algorithms Lab")
    as [_ Honce].
  { vm_compute. reflexivity. }
  { decide_by_compute. }
  destruct Honce as [Honce _]; [decide_by_compute|].
  split.
  - rewrite Htwice. vm_compute. reflexivity.
  - rewrite Honce. vm_compute. reflexivity.
Defined.

(** ** The loop over the subjects, for every csv *)

Lemma foldl_insert_last {V} (f : Row → V) (data : list Row) (d : gmap string V) s :
  foldl (λ d r, <[Subject r := f r]> d) d data !! s
  = match last (filter (λ r, Subject r = s) data) with
    | Some r => Some (f r)
    | None => d !! s
    end.
Proof.
  revert d. induction data as [|r data IH]; intros d; [done|].
  cbn [foldl]. rewrite IH. destruct (decide (Subject r = s)) as [Heq|Hne].
  - rewrite filter_cons_True, last_cons by done.
    destruct (last (filter _ data)); [done|]. by rewrite Heq, lookup_insert_eq.
  - rewrite filter_cons_False by done.
    destruct (last (filter _ data)); [done|]. by rewrite lookup_insert_ne.
Qed.

(** A column dict holds, for a subject, the entry of its last row. *)
Lemma dict_zip_last {V} (f : Row → V) (data : list Row) s :
  dict_zip (Subject <$> data) (f <$> data) !! s
  = f <$> last (filter (λ r, Subject r = s) data).
Proof.
  rewrite dict_zip_fmap, foldl_insert_last, lookup_empty.
  by destruct (last _).
Qed.

Lemma check_lab_Some data s b :
  dict_zip (Subject <$> data) (Lab <$> data) !! s = Some b →
  s ∈ Subject <$> data ∧ lab_flag data s = b.
Proof.
  rewrite dict_zip_last. unfold lab_flag.
  destruct (last (filter (λ r, Subject r = s) data)) as [r|] eqn:Hlast; [|done].
  intros [= <-]. split; [|done].
  apply last_Some_elem_of, list_elem_of_filter in Hlast as [<- Hr].
  by apply list_elem_of_fmap_2.
Qed.

Lemma split_trace_init data :
  split_trace data []
    {| s_variables := []; s_laboratories := ∅;
       s_semesters := dict_zip (Subject <$> data) (Semester <$> data);
       s_professors := dict_zip (Subject <$> data) (Professor <$> data);
       s_difficulties := dict_zip (Subject <$> data) (Difficult <$> data) |}.
Proof.
  split; simpl.
  - done.
  - intros l t. rewrite lookup_empty. split; [done|].
    by intros (s & ?%elem_of_nil & _).
  - intros s Hs _. by rewrite dict_zip_dom, elem_of_list_to_set.
  - intros s Hs _. by rewrite dict_zip_dom, elem_of_list_to_set.
  - by intros v ?%elem_of_nil.
Qed.

Lemma split_subject_trace data pre st x st' :
  split_trace data pre st →
  split_subject (dict_zip (Subject <$> data) (Lab <$> data)) st x = Ok st' →
  split_trace data (pre ++ [x]) st'.
Proof.
  intros [Hv Hl Hplain Hpend Hcov]. unfold split_subject.
  intros (has_lab & [Hx Hflag]%getitem_Ok%check_lab_Some & H)%bind_Ok.
  destruct has_lab.
  - apply bind_Ok in H as ([s sems] & [_ ->]%pop_Ok & H).
    apply bind_Ok in H as ([p' profs] & [_ ->]%pop_Ok & H).
    apply bind_Ok in H as ([d diffs] & [_ ->]%pop_Ok & H).
    injection H as <-. split; simpl.
    + rewrite Hv, bind_app. simpl. unfold split_of at 3.
      by rewrite Hflag, app_nil_r.
    + intros l t. rewrite lookup_insert_Some, Hl. split.
      * intros [[<- <-]|[_ (s' & Hs' & ?)]].
        -- exists x. split; [set_solver|done].
        -- exists s'. split; [set_solver|done].
      * intros (s' & [Hs'| ->%list_elem_of_singleton]%elem_of_app & Hf & -> & ->).
        -- destruct (decide (lab_of x = lab_of s')) as [Heq|Hne].
           ++ left. apply lab_of_inj in Heq. by rewrite Heq.
           ++ right. split; [done|]. by exists s'.
        -- by left.
    + intros s' Hs' Hf. rewrite dom_insert_L, dom_delete_L.
      specialize (Hplain s' Hs' Hf).
      assert (s' ≠ x) by congruence. set_solver.
    + intros s' Hs' [Hnin Hne%not_elem_of_cons]%not_elem_of_app.
      rewrite dom_insert_L, dom_delete_L.
      specialize (Hpend s' Hs' Hnin). set_solver.
    + intros v. rewrite !dom_insert_L, dom_delete_L.
      intros [Hin|Hin]%elem_of_app.
      * destruct (decide (v = x)) as [->|Hne]; [by right; right|].
        destruct (Hcov v Hin) as [?|[?|?]]; set_solver.
      * set_solver.
  - injection H as <-. split; simpl.
    + rewrite Hv, bind_app. simpl. unfold split_of at 3.
      by rewrite Hflag, app_nil_r.
    + intros l t. rewrite Hl. split.
      * intros (s' & Hs' & ?). exists s'. split; [set_solver|done].
      * intros (s' & [Hs'| ->%list_elem_of_singleton]%elem_of_app & Hf & ?);
          [by exists s'|congruence].
    + done.
    + intros s' Hs' [Hnin _]%not_elem_of_app. by apply Hpend.
    + intros v [Hin| ->%list_elem_of_singleton]%elem_of_app; [by apply Hcov|].
      right; left. by apply Hplain.
Qed.

Lemma for_each_split_trace data names st :
  for_each (split_subject (dict_zip (Subject <$> data) (Lab <$> data))) names
    {| s_variables := []; s_laboratories := ∅;
       s_semesters := dict_zip (Subject <$> data) (Semester <$> data);
       s_professors := dict_zip (Subject <$> data) (Professor <$> data);
       s_difficulties := dict_zip (Subject <$> data) (Difficult <$> data) |}
  = Ok st →
  split_trace data names st ∧ split_ok st.
Proof.
  intros H.
  apply (for_each_inv (λ pre st, split_trace data pre st ∧ split_ok st) _ _ [])
    in H; [done| |].
  - intros pre x _ s s' _ [Ht Hok] Hs'. split.
    + by apply (split_subject_trace data pre s).
    + exact (split_subject_ok _ s x s' Hok Hs').
  - split; [apply split_trace_init|]. repeat split; simpl.
    + by rewrite !dict_zip_dom.
    + by rewrite !dict_zip_dom.
    + intros l t. by rewrite lookup_empty.
Qed.

(** X3. On a constructed instance, whatever the csv, the variable list is
    the concatenation, in row order, of what each row's subject is split
    into, where a subject with several rows is split, every time, by the
    lab flag of its last row; [laboratories] holds exactly the Lab/Theory
    pairs of the subjects with that flag. *)
Theorem variables_of_csv data e :
  Exams_init data = Ok e →
  variables e = (Subject <$> data) ≫= split_of (lab_flag data) ∧
  ∀ l t, laboratories e !! l = Some t ↔
    ∃ s, s ∈ Subject <$> data ∧ lab_flag data s = true ∧
         l = lab_of s ∧ t = theory_of s.
Proof.
  intros (st & vtc & Hst & _ & ->)%Exams_init_Ok. simpl.
  apply for_each_split_trace in Hst as [[Hv Hl _ _ _] _]. by split.
Qed.

Lemma variables_of_csv_witness :
  variables (built [algorithms; history; algorithms_lab; history])
  = ["Algorithms Theory"; "Algorithms Lab"; "History"; "Algorithms Lab"; "History"].
Proof.
  destruct (variables_of_csv [algorithms; history; algorithms_lab; history]
              (built [algorithms; history; algorithms_lab; history])) as [Hv _].
  { vm_compute. reflexivity. }
  rewrite Hv. vm_compute. reflexivity.
Defined.

(** ** When the constructor raises *)

Lemma for_each_Raise {S A} (body : S → A → result S) :
  ∀ l st err, for_each body l st = Raise err →
    ∃ pre x suf s, l = pre ++ x :: suf ∧ for_each body pre st = Ok s ∧
                   body s x = Raise err.
Proof.
  induction l as [|x l IH]; intros st err H; simpl in H; [done|].
  destruct (body st x) as [s1|e] eqn:Hb; simpl in H.
  - destruct (IH s1 err H) as (pre & y & suf & s & -> & Hpre & Hy).
    exists (x :: pre), y, suf, s. split; [done|]. split; [|done].
    simpl. by rewrite Hb.
  - injection H as <-. by exists [], x, l, st.
Qed.

Lemma pop_Raise {V} (d : gmap string V) k err :
  pop d k = Raise err → err = KeyError k ∧ d !! k = None.
Proof. unfold pop. destruct (d !! k); [done|]. by intros [= <-]. Qed.

Lemma split_subject_Raise data pre st x err :
  x ∈ Subject <$> data → split_trace data pre st → split_ok st →
  split_subject (dict_zip (Subject <$> data) (Lab <$> data)) st x = Raise err →
  err = KeyError x ∧ lab_flag data x = true ∧ x ∈ pre.
Proof.
  intros Hx Ht (Hs & Hp & _) H.
  assert (x ∈ dom (dict_zip (Subject <$> data) (Lab <$> data))) as Hdom.
  { by rewrite dict_zip_dom, elem_of_list_to_set. }
  apply elem_of_dom in Hdom as [b Hb].
  destruct (check_lab_Some data x b Hb) as [_ Hflag].
  unfold split_subject, getitem in H. rewrite Hb in H. simpl in H.
  destruct b; [|done].
  assert (x ∉ dom (s_difficulties st) → x ∈ pre) as Hpre.
  { intros Hnin. destruct (decide (x ∈ pre)) as [|Hnpre]; [done|].
    destruct Hnin. by apply (t_pending data pre st Ht). }
  destruct (pop (s_semesters st) x) as [[s sems]|e] eqn:Hpop1; simpl in H.
  2: { injection H as <-. apply pop_Raise in Hpop1 as [-> Hnone].
       split_and!; [done..|]. apply Hpre.
       by rewrite <- Hs, not_elem_of_dom. }
  destruct (pop (s_professors st) x) as [[p' profs]|e] eqn:Hpop2; simpl in H.
  2: { injection H as <-. apply pop_Raise in Hpop2 as [-> Hnone].
       split_and!; [done..|]. apply Hpre.
       by rewrite <- Hp, not_elem_of_dom. }
  destruct (pop (s_difficulties st) x) as [[d diffs]|e] eqn:Hpop3; simpl in H;
    [done|].
  injection H as <-. apply pop_Raise in Hpop3 as [-> Hnone].
  split_and!; [done..|]. apply Hpre. by rewrite not_elem_of_dom.
Qed.

Lemma for_each_attach_dom labs diffs vars pre vtc :
  (∀ x, x ∈ pre → x ∈ vars) →
  for_each (attach labs diffs) pre (dict_comp (λ _, [SlotC]) vars) = Ok vtc →
  dom vtc = list_to_set vars.
Proof.
  intros Hsub H.
  apply (for_each_inv (λ _ vtc, dom vtc = list_to_set vars) _ _ []) in H; [done| |].
  - intros pre' x suf s s' Heq Hdom Hs'. rewrite <- Hdom.
    apply (attach_dom labs diffs s x); [|done].
    rewrite Hdom, elem_of_list_to_set. apply Hsub.
    rewrite app_nil_l in Heq. rewrite Heq. set_solver.
  - apply dict_comp_dom.
Qed.

Lemma assemble_Raise labs diffs vars err :
  assemble labs diffs vars = Raise err →
  ∃ v, err = KeyError v ∧ v ∈ vars ∧ labs !! v = None ∧ diffs !! v = None.
Proof.
  unfold assemble.
  intros (pre & v & suf & vtc & Hvars & Hpre & Hv)%for_each_Raise.
  assert (v ∈ vars) as Hin by (rewrite Hvars; set_solver).
  assert (dom vtc = list_to_set vars) as Hdom.
  { apply (for_each_attach_dom labs diffs vars pre); [|done].
    intros x Hx. rewrite Hvars. set_solver. }
  assert (v ∈ dom vtc) as [l Hl]%elem_of_dom
    by (by rewrite Hdom, elem_of_list_to_set).
  rewrite (attach_spec _ _ _ _ _ Hl) in Hv.
  destruct (contains labs v) eqn:Hc; simpl in Hv; [done|].
  case_bool_decide as Hd; [|done]. injection Hv as <-.
  exists v. by apply contains_false in Hc.
Qed.

(** Where the loops of the constructor raise, in the model of typed rows *)
Lemma Exams_init_Raise data err :
  Exams_init data = Raise err →
  ∃ s, err = KeyError s ∧ s ∈ Subject <$> data ∧ lab_flag data s = true ∧
    ((∃ pre suf, Subject <$> data = pre ++ s :: suf ∧ s ∈ pre) ∨
     (∃ s', s' ∈ Subject <$> data ∧ lab_flag data s' = true ∧ s = theory_of s')).
Proof.
  unfold Exams_init. destruct (split_subjects data) as [st|e] eqn:Hst; simpl.
  - destruct (assemble _ _ _) as [vtc|e] eqn:Hvtc; simpl; [done|].
    intros [= ->].
    apply assemble_Raise in Hvtc as (v & -> & Hv & Hlab & Hdiff).
    apply for_each_split_trace in Hst as [Ht _].
    exists v. split; [done|].
    destruct (t_covered data _ st Ht v Hv) as [Hin|[Hin|[Hsub Hflag]]].
    { by apply elem_of_dom in Hin as [? ?]; congruence. }
    { by apply elem_of_dom in Hin as [? ?]; congruence. }
    split_and!; [done..|]. right.
    rewrite (t_variables data _ st Ht) in Hv.
    apply list_elem_of_bind in Hv as (s' & Hv & Hs'). unfold split_of in Hv.
    destruct (lab_flag data s') eqn:Hflag'.
    + apply elem_of_cons in Hv as [->|Hv]; [by exists s'|].
      apply list_elem_of_singleton in Hv as ->.
      assert (s_laboratories st !! lab_of s' = Some (theory_of s')) as Hl.
      { apply (t_laboratories data _ st Ht). by exists s'. }
      congruence.
    + apply list_elem_of_singleton in Hv as ->. congruence.
  - intros [= ->]. unfold split_subjects in Hst.
    apply for_each_Raise in Hst as (pre & x & suf & s & Hsub & Hpre & Hx).
    apply for_each_split_trace in Hpre as [Ht Hok].
    assert (x ∈ Subject <$> data) as Hin by (rewrite Hsub; set_solver).
    destruct (split_subject_Raise data pre s x err Hin Ht Hok Hx)
      as (-> & Hflag & Hxpre).
    exists x. split_and!; [done..|]. left. by exists pre, suf.
Qed.

(** X7. For a catalogue of records with string subjects, a [KeyError]
    that one of the two loops of the constructor (lines 32-54) raises
    comes from a name collision: its key is a subject of the csv with a
    lab flag that either has an earlier row in the csv (the second [pop]
    fails) or is the Theory name of a subject with a lab flag (its
    attributes were popped, so the difficulty lookup of line 53 fails). *)
Theorem init_raises_on_collision data s :
  Exams_init data = Raise (KeyError s) →
  s ∈ Subject <$> data ∧ lab_flag data s = true ∧
  ((∃ pre suf, Subject <$> data = pre ++ s :: suf ∧ s ∈ pre) ∨
   (∃ s', s' ∈ Subject <$> data ∧ lab_flag data s' = true ∧ s = theory_of s')).
Proof.
  intros H. destruct (Exams_init_Raise data _ H) as (s' & [= <-] & Hrest).
  exact Hrest.
Qed.

Lemma init_raises_on_collision_witness :
  "Algorithms" ∈ Subject <$> [algorithms; algorithms] ∧
  lab_flag [algorithms; algorithms] "Algorithms" = true ∧
  ((∃ pre suf, Subject <$> [algorithms; algorithms] = pre ++ "Algorithms" :: suf ∧
               "Algorithms" ∈ pre) ∨
   (∃ s', s' ∈ Subject <$> [algorithms; algorithms] ∧
          lab_flag [algorithms; algorithms] s' = true ∧
          "Algorithms" = theory_of s')).
Proof.
  apply (init_raises_on_collision [algorithms; algorithms] "Algorithms").
  vm_compute. reflexivity.
Defined.

(** ** Catalogues without labs *)

Lemma check_lab_plain data s :
  (∀ r, r ∈ data → Lab r = false) → s ∈ Subject <$> data →
  dict_zip (Subject <$> data) (Lab <$> data) !! s = Some false.
Proof.
  intros Hplain Hs.
  assert (s ∈ dom (dict_zip (Subject <$> data) (Lab <$> data))) as Hdom.
  { by rewrite dict_zip_dom, elem_of_list_to_set. }
  apply elem_of_dom in Hdom as [b Hb]. rewrite Hb. f_equal.
  rewrite dict_zip_last in Hb.
  destruct (last (filter (λ r, Subject r = s) data)) as [r|] eqn:Hlast; [|done].
  injection Hb as <-.
  apply last_Some_elem_of, list_elem_of_filter in Hlast as [_ Hr]. by apply Hplain.
Qed.

(** X6. A csv in which no row has a lab always constructs, also with
    repeated subjects: the variables are the subjects of the rows, in
    order and with their repetitions, [laboratories] is empty, and each
    attribute dict holds for a subject the entry of its last row. *)
Theorem plain_catalogue data :
  (∀ r, r ∈ data → Lab r = false) →
  ∃ e, Exams_init data = Ok e ∧
    variables e = Subject <$> data ∧
    laboratories e = ∅ ∧
    (∀ s, semesters e !! s
          = Semester <$> last (filter (λ r, Subject r = s) data)) ∧
    (∀ s, professors e !! s
          = Professor <$> last (filter (λ r, Subject r = s) data)) ∧
    (∀ s, difficulties e !! s
          = Difficult <$> last (filter (λ r, Subject r = s) data)).
Proof.
  intros Hplain.
  set (st0 := {| s_variables := []; s_laboratories := ∅;
       s_semesters := dict_zip (Subject <$> data) (Semester <$> data);
       s_professors := dict_zip (Subject <$> data) (Professor <$> data);
       s_difficulties := dict_zip (Subject <$> data) (Difficult <$> data) |}).
  destruct (for_each_total
    (λ pre st, st = {| s_variables := pre; s_laboratories := ∅;
       s_semesters := s_semesters st0; s_professors := s_professors st0;
       s_difficulties := s_difficulties st0 |})
    (split_subject (dict_zip (Subject <$> data) (Lab <$> data)))
    (Subject <$> data) [] st0) as (st & Hst & ->).
  - intros pre x suf s Heq ->. rewrite app_nil_l in Heq.
    unfold split_subject, getitem.
    rewrite (check_lab_plain data x Hplain) by (rewrite Heq; set_solver).
    simpl. by eexists.
  - done.
  - rewrite app_nil_l in Hst.
    destruct (assemble_total ∅ (s_difficulties st0) (Subject <$> data))
      as [vtc Hvtc].
    { intros v Hv _. apply elem_of_dom. simpl.
      by rewrite dict_zip_dom, elem_of_list_to_set. }
    eexists. split.
    { apply Exams_init_Ok. eexists _, vtc. split; [exact Hst|]. by split. }
    simpl. split_and!; try done; intros s; apply dict_zip_last.
Qed.

Lemma plain_catalogue_witness :
  ∃ e, Exams_init [history; history] = Ok e ∧
    variables e = ["History"; "History"] ∧ laboratories e = ∅.
Proof.
  destruct (plain_catalogue [history; history]) as (e & He & Hv & Hl & _).
  - intros r Hr. apply elem_of_cons in Hr as [->|Hr]; [reflexivity|].
    apply elem_of_cons in Hr as [->|Hr]; [reflexivity|].
    by apply elem_of_nil in Hr.
  - exists e. split; [exact He|]. split; [exact Hv|exact Hl].
Defined.

(** ** The predicates on the rows of the csv *)

Lemma bool_decide_or_ne (x y : Z) (P : Prop) `{!Decision P} (p : bool) :
  (p = true ↔ P) →
  negb p || negb (x =? y) = bool_decide (¬ P ∨ x ≠ y).
Proof.
  intros Hp. apply eq_bool_prop_intro.
  rewrite orb_True, !negb_True, bool_decide_spec, !Is_true_true, Z.eqb_eq.
  by rewrite Hp.
Qed.

(** X8. For a catalogue without name collisions whose rows all have an
    integer semester and a professor name (no empty cell),
    semester-uniqueness on the variables that carry two rows (the subject,
    or its Theory variable) compares the semesters of the two rows, and
    professor-uniqueness their professors: each holds iff the rows differ
    in that attribute or the assigned days differ. *)
Theorem attribute_predicates_on_rows data e r1 r2 a b :
  well_named data → Exams_init data = Ok e → r1 ∈ data → r2 ∈ data →
  semester_constraint e (key_of r1) a (key_of r2) b
  = Ok (bool_decide (Semester r1 ≠ Semester r2 ∨ a.1 ≠ b.1)) ∧
  professor_constraint e (key_of r1) a (key_of r2) b
  = Ok (bool_decide (Professor r1 ≠ Professor r2 ∨ a.1 ≠ b.1)).
Proof.
  intros Hwn He Hr1 Hr2.
  destruct (well_named_encodes data Hwn) as (e' & He' & Henc).
  assert (e' = e) as -> by congruence.
  assert (∀ r, r ∈ data → semesters e !! key_of r = Some (Semester r)) as Hs.
  { intros r Hr. apply (e_semesters data e Henc). by exists r. }
  assert (∀ r, r ∈ data → professors e !! key_of r = Some (Professor r)) as Hp.
  { intros r Hr. apply (e_professors data e Henc). by exists r. }
  unfold semester_constraint, professor_constraint, getitem.
  rewrite !Hs, !Hp by done. simpl. split; f_equal.
  - apply bool_decide_or_ne. apply Z.eqb_eq.
  - apply bool_decide_or_ne. apply bool_decide_eq_true.
Qed.

Lemma attribute_predicates_on_rows_witness :
  semester_constraint (built scenario) "Algorithms Theory" (4, 0) "History" (4, 1)
  = Ok (bool_decide (Semester algorithms ≠ Semester history ∨ (4, 0).1 ≠ (4, 1).1)) ∧
  professor_constraint (built scenario) "Algorithms Theory" (4, 0) "History" (4, 1)
  = Ok (bool_decide (Professor algorithms ≠ Professor history
                     ∨ (4, 0).1 ≠ (4, 1).1)).
Proof.
  apply (attribute_predicates_on_rows scenario (built scenario) algorithms history).
  - decide_by_compute.
  - vm_compute. reflexivity.
  - unfold scenario. left.
  - unfold scenario. right. left.
Defined.

(** X9. For a catalogue without name collisions and two variables of the
    constructed instance, semester-uniqueness and professor-uniqueness
    raise [KeyError] with the first variable as key when it is a Lab
    variable, with the second variable as key when only that one is a
    Lab variable, and give a boolean when neither is. *)
Theorem attribute_lookup_errors data e A B a b :
  well_named data → Exams_init data = Ok e →
  A ∈ variables e → B ∈ variables e →
  (is_Some (laboratories e !! A) →
     semester_constraint e A a B b = Raise (KeyError A) ∧
     professor_constraint e A a B b = Raise (KeyError A)) ∧
  (laboratories e !! A = None → is_Some (laboratories e !! B) →
     semester_constraint e A a B b = Raise (KeyError B) ∧
     professor_constraint e A a B b = Raise (KeyError B)) ∧
  (laboratories e !! A = None → laboratories e !! B = None →
     ∃ r r' : bool, semester_constraint e A a B b = Ok r ∧
                    professor_constraint e A a B b = Ok r').
Proof.
  intros Hwn He HA HB.
  destruct (well_named_encodes data Hwn) as (e' & He' & Henc).
  assert (e' = e) as -> by congruence.
  assert (∀ v, v ∈ variables e → is_Some (laboratories e !! v) →
            semesters e !! v = None ∧ professors e !! v = None) as Hlab.
  { intros v Hv [t Ht].
    destruct (encodes_dom data e v Hwn Henc) as (Hs & Hp & _).
    rewrite <- !not_elem_of_dom, Hs, Hp, Ht. naive_solver. }
  assert (∀ v, v ∈ variables e → laboratories e !! v = None →
            is_Some (semesters e !! v) ∧ is_Some (professors e !! v)) as Hnon.
  { intros v Hv Hnone.
    destruct (encodes_dom data e v Hwn Henc) as (Hs & Hp & _).
    rewrite <- !elem_of_dom, Hs, Hp. naive_solver. }
  unfold semester_constraint, professor_constraint, getitem. split_and!.
  - intros HAl. destruct (Hlab A HA HAl) as [-> ->]. done.
  - intros HAn HBl. destruct (Hnon A HA HAn) as [[sA ->] [pA ->]].
    destruct (Hlab B HB HBl) as [-> ->]. done.
  - intros HAn HBn. destruct (Hnon A HA HAn) as [[sA ->] [pA ->]].
    destruct (Hnon B HB HBn) as [[sB ->] [pB ->]]. simpl. by eexists _, _.
Qed.

Lemma attribute_lookup_errors_witness :
  semester_constraint (built scenario) "Algorithms Lab" (0, 1) "History" (0, 0)
  = Raise (KeyError "Algorithms Lab") ∧
  professor_constraint (built scenario) "History" (0, 0) "Algorithms Lab" (0, 1)
  = Raise (KeyError "Algorithms Lab").
Proof.
  destruct (attribute_lookup_errors scenario (built scenario)
              "Algorithms Lab" "History" (0, 1) (0, 0)) as (Hfirst & _ & _).
  { decide_by_compute. } { vm_compute. reflexivity. }
  { decide_by_compute. } { decide_by_compute. }
  destruct (attribute_lookup_errors scenario (built scenario)
              "History" "Algorithms Lab" (0, 0) (0, 1)) as (_ & Hsecond & _).
  { decide_by_compute. } { vm_compute. reflexivity. }
  { decide_by_compute. } { decide_by_compute. }
  split.
  - apply Hfirst. eexists. vm_compute. reflexivity.
  - apply Hsecond; [vm_compute; reflexivity|]. eexists. vm_compute. reflexivity.
Defined.

(** ** How the predicates relate *)

(** X10. On a Lab variable and its Theory variable of a constructed
    instance, values that satisfy lab-ordering also satisfy
    slot-uniqueness, and they violate difficulty-separation in either
    order: no pair of values satisfies lab-ordering and
    difficulty-separation together. *)
Theorem lab_pair_consistency data e L T a b :
  Exams_init data = Ok e → laboratories e !! L = Some T →
  lab_constraint e L a T b = Ok true →
  slot_constraint e L a T b = Ok true ∧
  difficulty_constraint e T b L a = Ok false ∧
  difficulty_constraint e L a T b = Ok false.
Proof.
  intros _ HL. rewrite (lab_constraint_lab_first e L T a b HL).
  intros [= [Hday Hslot]%bool_decide_eq_true].
  unfold slot_constraint, difficulty_constraint. split_and!; f_equal.
  - apply negb_true_iff, bool_decide_eq_false. intros ->. lia.
  - apply Z.leb_gt. lia.
  - apply Z.leb_gt. lia.
Qed.

Lemma lab_pair_consistency_witness :
  slot_constraint (built scenario) "Algorithms Lab" (5, 1) "Algorithms Theory" (5, 0)
  = Ok true ∧
  difficulty_constraint (built scenario) "Algorithms Theory" (5, 0)
    "Algorithms Lab" (5, 1) = Ok false ∧
  difficulty_constraint (built scenario) "Algorithms Lab" (5, 1)
    "Algorithms Theory" (5, 0) = Ok false.
Proof.
  apply (lab_pair_consistency scenario (built scenario)).
  - vm_compute. reflexivity.
  - vm_compute. reflexivity.
  - vm_compute. reflexivity.
Defined.

(** X11. On a Lab variable and its Theory variable of a constructed
    instance, the value of the Theory variable determines the one value of
    the Lab variable that satisfies lab-ordering: same day, next slot.
    Within the domain such a value exists iff the Theory slot is not the
    last one, and a Lab value has a matching Theory value iff its slot is
    not the first one. *)
Theorem lab_value_determined data e L T :
  Exams_init data = Ok e → laboratories e !! L = Some T →
  (∀ a b, lab_constraint e L a T b = Ok true ↔ a = (b.1, b.2 + 1)) ∧
  (∀ b, b ∈ full_domain →
     (∃ a, a ∈ full_domain ∧ lab_constraint e L a T b = Ok true) ↔ b.2 < 2) ∧
  (∀ a, a ∈ full_domain →
     (∃ b, b ∈ full_domain ∧ lab_constraint e L a T b = Ok true) ↔ 0 < a.2).
Proof.
  intros _ HL.
  assert (∀ a b, lab_constraint e L a T b = Ok true ↔ a = (b.1, b.2 + 1)) as Hiff.
  { intros [a1 a2] [b1 b2]. rewrite (lab_constraint_lab_first e L T _ _ HL).
    simpl. split.
    - intros [= [-> ->]%bool_decide_eq_true]. done.
    - intros [= -> ->]. by rewrite bool_decide_eq_true_2. }
  split; [done|]. split.
  - intros [b1 b2] [Hd Hs]%elem_of_full_domain. simpl in *. split.
    + intros ([a1 a2] & [_ Ha]%elem_of_full_domain & [= -> ->]%Hiff).
      simpl in *. lia.
    + intros Hlt. exists (b1, b2 + 1). split; [|by apply Hiff].
      apply elem_of_full_domain. simpl. lia.
  - intros [a1 a2] [Hd Hs]%elem_of_full_domain. simpl in *. split.
    + intros ([b1 b2] & [_ Hb]%elem_of_full_domain & [= -> ->]%Hiff).
      simpl in *. lia.
    + intros Hlt. exists (a1, a2 - 1). split.
      * apply elem_of_full_domain. simpl. lia.
      * apply Hiff. simpl. f_equal. lia.
Qed.

Lemma lab_value_determined_witness :
  (lab_constraint (built scenario) "Algorithms Lab" (5, 1) "Algorithms Theory" (5, 0)
   = Ok true ↔ (5, 1) = ((5, 0).1, (5, 0).2 + 1)) ∧
  ((∃ a, a ∈ full_domain ∧
         lab_constraint (built scenario) "Algorithms Lab" a "Algorithms Theory" (5, 2)
         = Ok true) ↔ (5, 2).2 < 2).
Proof.
  destruct (lab_value_determined scenario (built scenario)
              "Algorithms Lab" "Algorithms Theory") as (Hone & Hlast & _).
  { vm_compute. reflexivity. } { vm_compute. reflexivity. }
  split; [apply Hone|]. apply Hlast. apply elem_of_full_domain. simpl. lia.
Defined.

(** X12. Values that satisfy difficulty-separation satisfy the other
    day-based predicates on the same pair: slot-uniqueness, and
    semester-uniqueness and professor-uniqueness wherever both variables
    have the attribute. *)
Theorem difficulty_implies_day_predicates e A a B b :
  difficulty_constraint e A a B b = Ok true →
  slot_constraint e A a B b = Ok true ∧
  (is_Some (semesters e !! A) → is_Some (semesters e !! B) →
     semester_constraint e A a B b = Ok true) ∧
  (is_Some (professors e !! A) → is_Some (professors e !! B) →
     professor_constraint e A a B b = Ok true).
Proof.
  unfold difficulty_constraint. intros [= Hd%Z.leb_le].
  assert (a.1 ≠ b.1) as Hne by lia.
  assert (negb (a.1 =? b.1) = true) as Hday.
  { by apply negb_true_iff, Z.eqb_neq. }
  split_and!.
  - unfold slot_constraint. f_equal.
    apply negb_true_iff, bool_decide_eq_false. by intros ->.
  - intros [sA HsA] [sB HsB]. unfold semester_constraint, getitem.
    rewrite HsA, HsB. simpl. by rewrite Hday, orb_true_r.
  - intros [pA HpA] [pB HpB]. unfold professor_constraint, getitem.
    rewrite HpA, HpB. simpl. by rewrite Hday, orb_true_r.
Qed.

Lemma difficulty_implies_day_predicates_witness :
  slot_constraint (built scenario) "Algorithms Theory" (3, 0) "History" (5, 0)
  = Ok true ∧
  semester_constraint (built scenario) "Algorithms Theory" (3, 0) "History" (5, 0)
  = Ok true.
Proof.
  destruct (difficulty_implies_day_predicates (built scenario)
              "Algorithms Theory" (3, 0) "History" (5, 0)) as (Hslot & Hsem & _).
  { vm_compute. reflexivity. }
  split; [exact Hslot|].
  apply Hsem; eexists; vm_compute; reflexivity.
Defined.

(** ** The calendar *)

Lemma for__spec {A} (l : list A) (body : A → Print ()) (out : A → list Out) :
  (∀ x, x ∈ l → body x = (out x, Ok ())) → for_ l body = (l ≫= out, Ok ()).
Proof.
  induction l as [|x l IH]; intros Hbody; [done|].
  cbn [for_]. unfold mbind at 1, Print_bind.
  rewrite (Hbody x) by left. cbn [fst snd].
  rewrite IH by (intros y Hy; apply Hbody; by right). done.
Qed.

Lemma print_then s (m : Print ()) o :
  m = (o, Ok ()) → (print s ≫= λ _, m) = (Line s :: o, Ok ()).
Proof. by intros ->. Qed.

Lemma then_print (m : Print ()) o s :
  m = (o, Ok ()) → (m ≫= λ _, print s) = (o ++ [Line s], Ok ()).
Proof. by intros ->. Qed.

Lemma display_calendar entries : display (PyDict entries) = (calendar entries, Ok ()).
Proof.
  unfold display, calendar. apply for__spec. intros k _.
  apply print_then, then_print, for__spec. intros i _.
  apply print_then, then_print, for__spec. intros j _.
  unfold mbind at 1, Print_bind. cbn [items mret Print_ret fst snd app].
  rewrite (for__spec entries _ (λ entry,
    if bool_decide ((Z.of_nat i, Z.of_nat j) = entry.2)
    then [Cell (SLOTS !!! j +:+ ": " +:+ entry.1)] else [])); [reflexivity|].
  intros entry _.
  case_bool_decide;
    [rewrite bool_decide_eq_true_2 by done|rewrite bool_decide_eq_false_2 by done];
    reflexivity.
Qed.

Lemma filter_bind {A B} (P : B → Prop) `{!∀ x, Decision (P x)}
    (l : list A) (f : A → list B) :
  filter P (l ≫= f) = l ≫= λ x, filter P (f x).
Proof.
  induction l as [|x l IH]; [done|]. by rewrite !bind_cons, filter_app, IH.
Qed.

Lemma cells_at_cells entries i j :
  filter (λ o, is_cell o) (cells_at entries i j) = cells_at entries i j ∧
  filter (λ o, ¬ is_cell o) (cells_at entries i j) = [].
Proof.
  unfold cells_at. rewrite !filter_bind.
  induction entries as [|entry entries [IH1 IH2]]; [done|].
  rewrite !bind_cons, IH1, IH2. by case_bool_decide.
Qed.

Lemma bind_pairs_slots {B} (i : nat) (js : list nat) (g : nat → nat → list B) :
  js ≫= (λ j, g i j) = (js ≫= λ j, [(i, j)]) ≫= λ ij, g ij.1 ij.2.
Proof.
  induction js as [|j js IHj]; [done|].
  by rewrite !bind_cons, bind_app, IHj, bind_singleton.
Qed.

Lemma bind_pairs_days {B} (l js : list nat) (g : nat → nat → list B) :
  l ≫= (λ i, js ≫= λ j, g i j)
  = (l ≫= λ i, js ≫= λ j, [(i, j)]) ≫= λ ij, g ij.1 ij.2.
Proof.
  induction l as [|i l IHi]; [done|].
  by rewrite !bind_cons, bind_app, IHi, (bind_pairs_slots i js g).
Qed.

Lemma bind_pairs {B} (ks : list nat) (ixs : nat → list nat) (js : list nat)
    (g : nat → nat → list B) :
  ks ≫= (λ k, ixs k ≫= λ i, js ≫= λ j, g i j)
  = (ks ≫= λ k, ixs k ≫= λ i, js ≫= λ j, [(i, j)]) ≫= λ ij, g ij.1 ij.2.
Proof.
  induction ks as [|k ks IHk]; [done|].
  by rewrite !bind_cons, bind_app, IHk, (bind_pairs_days (ixs k) js g).
Qed.

Lemma grid_full_domain :
  (λ ij : nat * nat, (Z.of_nat ij.1, Z.of_nat ij.2)) <$> grid = full_domain.
Proof. vm_compute. reflexivity. Qed.

Lemma cells_at_filter entries i j :
  cells_at entries i j
  = cell_of <$> filter (λ entry, entry.2 = (Z.of_nat i, Z.of_nat j)) entries.
Proof.
  unfold cells_at. induction entries as [|entry entries IH]; [done|].
  rewrite bind_cons, IH. case_bool_decide as Heq.
  - rewrite filter_cons_True by done. simpl. f_equal.
    unfold cell_of. destruct entry as [subject [day slot]]. simpl in *.
    injection Heq as <- <-. by rewrite Nat2Z.id.
  - by rewrite filter_cons_False.
Qed.

Lemma calendar_cells_loops entries :
  filter (λ o, is_cell o) (calendar entries)
  = seq 0 3 ≫= λ k, seq (k * 7) 7 ≫= λ i, seq 0 3 ≫= λ j, cells_at entries i j.
Proof.
  unfold calendar. rewrite filter_bind.
  apply list_bind_ext; [|done]. intros k.
  rewrite filter_cons_False, filter_app, filter_bind by (simpl; tauto).
  rewrite (filter_cons_False _ (Line "")), filter_nil, app_nil_r by (simpl; tauto).
  apply list_bind_ext; [|done]. intros i.
  rewrite filter_cons_False, filter_app, filter_bind by (simpl; tauto).
  rewrite (filter_cons_False _ (Line "")), filter_nil, app_nil_r by (simpl; tauto).
  apply list_bind_ext; [|done]. intros j.
  apply (proj1 (cells_at_cells entries i j)).
Qed.

(** The cells of a calendar, slot by slot in the order of the domain *)
Lemma calendar_cells entries :
  filter (λ o, is_cell o) (calendar entries)
  = full_domain ≫= λ v, cell_of <$> filter (λ entry, entry.2 = v) entries.
Proof.
  rewrite calendar_cells_loops, (bind_pairs _ _ _ (cells_at entries)).
  fold grid. rewrite <- grid_full_domain, list_fmap_bind.
  apply list_bind_ext; [|done]. intros [i j]. apply cells_at_filter.
Qed.

Lemma bind_app_Permutation {A B} (l : list A) (f g : A → list B) :
  l ≫= (λ x, f x ++ g x) ≡ₚ (l ≫= f) ++ (l ≫= g).
Proof.
  induction l as [|x l IH]; [done|]. rewrite !bind_cons, IH.
  rewrite <- !(assoc_L (++)). f_equiv.
  rewrite !(assoc_L (++)). f_equiv. apply (comm (++)).
Qed.

Lemma bind_indicator {A B} `{!EqDecision A} (l : list A) (x : A) (c : B) :
  NoDup l →
  l ≫= (λ v, if bool_decide (x = v) then [c] else [])
  = if bool_decide (x ∈ l) then [c] else [].
Proof.
  induction l as [|y l IH]; [done|].
  intros [Hnin Hnd]%NoDup_cons. rewrite bind_cons, IH by done.
  destruct (decide (x = y)) as [->|Hne].
  - rewrite (bool_decide_eq_true_2 (y = y)) by done.
    rewrite (bool_decide_eq_false_2 (y ∈ l)) by done.
    by rewrite bool_decide_eq_true_2 by left.
  - rewrite (bool_decide_eq_false_2 (x = y)) by done. simpl.
    destruct (decide (x ∈ l)) as [Hin|Hin].
    + rewrite !bool_decide_eq_true_2; [done|by right|done].
    + rewrite !bool_decide_eq_false_2; [done| |done].
      rewrite elem_of_cons. naive_solver.
Qed.

Lemma full_domain_NoDup : NoDup full_domain.
Proof. decide_by_compute. Qed.

(** X13. Rendering an assignment prints its cells slot by slot in the
    order of the domain (day after day, within a day slot after slot), and
    within a slot in the order of the assignment; so, up to order, there
    is one cell, labelled with its slot, for each entry whose value lies
    in the exam period, and none for an entry outside of it. *)
Theorem display_cells entries :
  filter (λ o, is_cell o) (display (PyDict entries)).1
  = (full_domain ≫= λ v, cell_of <$> filter (λ entry, entry.2 = v) entries) ∧
  filter (λ o, is_cell o) (display (PyDict entries)).1
  ≡ₚ cell_of <$> filter (λ entry, entry.2 ∈ full_domain) entries.
Proof.
  rewrite display_calendar. cbn [fst]. rewrite calendar_cells. split; [done|].
  induction entries as [|entry entries IH].
  - generalize full_domain. intros l.
    induction l as [|v l IHl]; [done|]. by rewrite bind_cons, IHl.
  - transitivity
      ((full_domain ≫= λ v, if bool_decide (entry.2 = v) then [cell_of entry] else [])
       ++ (full_domain ≫= λ v, cell_of <$> filter (λ entry, entry.2 = v) entries)).
    + rewrite <- bind_app_Permutation.
      rewrite (list_bind_ext _ (λ v,
        (if bool_decide (entry.2 = v) then [cell_of entry] else [])
        ++ (cell_of <$> filter (λ entry0, entry0.2 = v) entries)) _ full_domain);
        [done| |done].
      intros v. case_bool_decide.
      * by rewrite filter_cons_True.
      * by rewrite filter_cons_False.
    + rewrite IH, (bind_indicator _ _ _ full_domain_NoDup). case_bool_decide.
      * by rewrite filter_cons_True.
      * by rewrite filter_cons_False.
Qed.

(** X14. Rendering a dict never raises, and what it prints besides the
    cells does not depend on the assignment: the 48 lines of the empty
    calendar (3 week names, 21 day names, 21 line ends, 3 empty lines). *)
Theorem display_skeleton entries :
  (display (PyDict entries)).2 = Ok () ∧
  filter (λ o, ¬ is_cell o) (display (PyDict entries)).1 = (display (PyDict [])).1 ∧
  length (display (PyDict [])).1 = 48%nat.
Proof.
  rewrite !display_calendar. cbn [fst snd]. split; [done|]. split; [|done].
  unfold calendar. rewrite filter_bind.
  apply list_bind_ext; [|done]. intros k.
  rewrite filter_cons_True, filter_app, filter_bind by (simpl; tauto).
  rewrite (filter_cons_True _ (Line "")), filter_nil by (simpl; tauto).
  do 2 f_equal. apply list_bind_ext; [|done]. intros i.
  rewrite filter_cons_True, filter_app, filter_bind by (simpl; tauto).
  rewrite (filter_cons_True _ (Line "")), filter_nil by (simpl; tauto).
  do 2 f_equal. apply list_bind_ext; [|done]. intros j.
  by rewrite (proj2 (cells_at_cells entries i j)).
Qed.

(** ** The run over the five configurations *)

Lemma run_method_backtracking {St} (csp : Engine St) name sel inf exams :
  name ≠ "MIN_CONFLICTS:" →
  run_method csp (name, sel, inf) exams
  = (report name (backtracking_search csp exams sel inf).1.1.2
       (backtracking_search csp exams sel inf).1.2
     ++ calendar (infer_assignment csp (backtracking_search csp exams sel inf).2),
     Ok (backtracking_search csp exams sel inf).2).
Proof.
  intros Hname. unfold run_method.
  rewrite (bool_decide_eq_false_2 (name = "MIN_CONFLICTS:")) by done.
  rewrite (bool_decide_eq_true_2 (name ≠ "MIN_CONFLICTS:")) by done.
  destruct (backtracking_search csp exams sel inf) as [[[res checks] nodes] exams'].
  by rewrite display_calendar.
Qed.

Lemma run_method_min_conflicts {St} (csp : Engine St) sel inf exams :
  run_method csp ("MIN_CONFLICTS:", sel, inf) exams
  = (report "MIN_CONFLICTS:" (min_conflicts csp exams).1.1.2
       (min_conflicts csp exams).1.2
     ++ (display (min_conflicts csp exams).1.1.1).1,
     match (min_conflicts csp exams).1.1.1 with
     | PyDict _ => Ok (min_conflicts csp exams).2
     | PyNone => Raise (AttributeError "items")
     end).
Proof.
  unfold run_method.
  rewrite (bool_decide_eq_true_2 ("MIN_CONFLICTS:" = "MIN_CONFLICTS:")) by done.
  rewrite (bool_decide_eq_false_2 ("MIN_CONFLICTS:" ≠ "MIN_CONFLICTS:"))
    by (intros H; by apply H).
  destruct (min_conflicts csp exams) as [[[res checks] nodes] exams'].
  cbn [fst snd]. f_equal. destruct res as [|entries].
  - reflexivity.
  - by rewrite display_calendar.
Qed.

(** X15. Whatever the engine, the harness runs the five configurations in
    the order of [methods] on one instance, each search starting from the
    state the search before it left. The four backtracking configurations
    print their report and the calendar of the inferred assignment and
    never raise; the run ends with the state left by the local search, or
    raises [AttributeError] when the local search hands back [None]. *)
Theorem run_methods {St} (csp : Engine St) (exams : St) :
  let fc_mrv := backtracking_search csp exams (Some mrv) (Some forward_checking) in
  let fc_wdeg := backtracking_search csp fc_mrv.2 (Some dom_wdeg) (Some forward_checking) in
  let mac_mrv := backtracking_search csp fc_wdeg.2 (Some mrv) (Some mac) in
  let mac_wdeg := backtracking_search csp mac_mrv.2 (Some dom_wdeg) (Some mac) in
  let local := min_conflicts csp mac_wdeg.2 in
  run csp methods exams
  = (report "FC + MRV:" fc_mrv.1.1.2 fc_mrv.1.2
       ++ calendar (infer_assignment csp fc_mrv.2)
       ++ report "FC + DOM/WDEG:" fc_wdeg.1.1.2 fc_wdeg.1.2
       ++ calendar (infer_assignment csp fc_wdeg.2)
       ++ report "MAC + MRV:" mac_mrv.1.1.2 mac_mrv.1.2
       ++ calendar (infer_assignment csp mac_mrv.2)
       ++ report "MAC + DOM/WDEG:" mac_wdeg.1.1.2 mac_wdeg.1.2
       ++ calendar (infer_assignment csp mac_wdeg.2)
       ++ report "MIN_CONFLICTS:" local.1.1.2 local.1.2
       ++ (display local.1.1.1).1,
     match local.1.1.1 with
     | PyDict _ => Ok local.2
     | PyNone => Raise (AttributeError "items")
     end).
Proof.
  intros fc_mrv fc_wdeg mac_mrv mac_wdeg local. unfold methods. cbn [run].
  rewrite !run_method_backtracking by discriminate. cbn [fst snd].
  rewrite !run_method_backtracking by discriminate. cbn [fst snd].
  rewrite !run_method_backtracking by discriminate. cbn [fst snd].
  rewrite !run_method_backtracking by discriminate. cbn [fst snd].
  rewrite run_method_min_conflicts. cbn [fst snd]. fold fc_mrv.
  fold fc_wdeg. fold mac_mrv. fold mac_wdeg. fold local.
  destruct (local.1.1.1) eqn:Hres; cbn [fst snd];
    rewrite ?app_nil_r, <- ?app_assoc; reflexivity.
Qed.

(** ** Sizes and attributes, for every csv *)

Lemma length_split_of (flag : string → bool) (l : list string) :
  length (l ≫= split_of flag)
  = (length l + length (filter (λ s, flag s = true) l))%nat.
Proof.
  induction l as [|s l IH]; [done|].
  rewrite bind_cons, length_app, IH. unfold split_of at 1.
  destruct (flag s) eqn:Hs.
  - rewrite filter_cons_True by done. simpl. lia.
  - rewrite filter_cons_False by congruence. simpl. lia.
Qed.

(** X16. On a constructed instance, whatever the csv, there is one
    variable for each row and one more for each row whose subject has the
    lab flag. *)
Theorem variable_count data e :
  Exams_init data = Ok e →
  length (variables e)
  = (length data
     + length (filter (λ s, lab_flag data s = true) (Subject <$> data)))%nat.
Proof.
  intros (st & vtc & Hst & _ & ->)%Exams_init_Ok. simpl.
  apply for_each_split_trace in Hst as [[Hv _ _ _ _] _].
  by rewrite Hv, length_split_of, length_fmap.
Qed.

Lemma variable_count_witness :
  length (variables (built scenario)) = 3%nat.
Proof.
  rewrite (variable_count scenario (built scenario)).
  - vm_compute. reflexivity.
  - vm_compute. reflexivity.
Defined.

(** X17. On a constructed instance, whatever the csv, the three attribute
    dicts have the same keys, and every variable that is not a key of
    [laboratories] has a semester, a professor and a difficulty flag. *)
Theorem attributes_of_variables data e :
  Exams_init data = Ok e →
  dom (semesters e) = dom (difficulties e) ∧
  dom (professors e) = dom (difficulties e) ∧
  ∀ v, v ∈ variables e → laboratories e !! v = None →
    is_Some (semesters e !! v) ∧ is_Some (professors e !! v) ∧
    is_Some (difficulties e !! v).
Proof.
  intros He%Exams_init_constructed. split_and!.
  - apply (c_dom_semesters e He).
  - apply (c_dom_professors e He).
  - intros v. by apply constructed_attrs.
Qed.

Lemma attributes_of_variables_witness :
  is_Some (semesters (built [algorithms_lab; algorithms]) !! "Algorithms Theory") ∧
  is_Some (professors (built [algorithms_lab; algorithms]) !! "Algorithms Theory") ∧
  is_Some (difficulties (built [algorithms_lab; algorithms]) !! "Algorithms Theory").
Proof.
  destruct (attributes_of_variables [algorithms_lab; algorithms]
              (built [algorithms_lab; algorithms])) as (_ & _ & Hattr).
  { vm_compute. reflexivity. }
  apply Hattr; [decide_by_compute|vm_compute; reflexivity].
Defined.
